(** * MCP47FEB dual-channel DAC driver (mcp47feb.c): register access layer

    A shallow embedding of the driver over an explicit world: the memory
    holding device handles, the static receive buffer, the state of the
    I2C transport, and the list of HAL calls issued so far. *)

From Stdlib Require Import ZArith List Bool Lia.
Import ListNotations.
Local Open Scope Z_scope.

(** ** C integer conversions *)

(** Conversion of an [int] expression to [uint8_t] / [uint16_t]. *)
Definition u8 (x : Z) : Z := x mod 2 ^ 8.
Definition u16 (x : Z) : Z := x mod 2 ^ 16.

(** ** Macros and register constants of mcp47feb.c *)

Definition word (x y : Z) : Z := Z.lor (Z.shiftl x 8) y.
Definition lowByte (x : Z) : Z := Z.land x 0x0F.

Definition BASE_ADDR : Z := 0x60.
Definition RESET_REG : Z := 0x06.
Definition WAKE_REG : Z := 0x0A.
Definition UPDATE_REG : Z := 0x08.
Definition GENERALCALL : Z := 0x00.
Definition READ : Z := 0x06.
Definition WRITE : Z := 0x00.
Definition DAC0_REG : Z := 0x00.
Definition DAC1_REG : Z := 0x01.
Definition VREF_REG : Z := 0x08.
Definition PD_REG : Z := 0x09.
Definition GAIN_REG : Z := 0x0A.
Definition WL_REG : Z := 0x0B.
Definition DAC0_EP_REG : Z := 0x10.
Definition DAC1_EP_REG : Z := 0x11.
Definition VREF_EP_REG : Z := 0x18.
Definition PD_EP_REG : Z := 0x19.
Definition GAIN_EP_REG : Z := 0x1A.
Definition SALCK : Z := 0xD0.
Definition UNLOCK_SALCK : Z := 0x02.
Definition LOCK_SALCK : Z := 0x04.

(** ** Types of the platform headers *)

(** [HAL_StatusTypeDef] of the STM32 HAL. *)
Inductive HAL_StatusTypeDef : Set :=
| HAL_OK
| HAL_ERROR
| HAL_BUSY
| HAL_TIMEOUT.

(** An [I2C_HandleTypeDef *]: only its identity matters to the driver. *)
Definition I2C_HandleTypeDef : Set := nat.

(** The device handle.  mcp47feb.h is not part of the sources; the fields
    and their order are those of the brace initialiser in
    [MCP47FEB_LockSALCK] and of the accesses [dac->devAddr], [dac->hi2c]. *)
Record MCP47FEB_TypeDef : Set := mkDAC {
  devAddr : Z;
  hi2c : I2C_HandleTypeDef
}.

(** The address of a handle in memory. *)
Definition ptr : Set := nat.

(** A [MCP47FEB_TypeDef *] as the framing helpers receive it: the address
    of a handle in memory, or the address of a local struct of the caller
    (the [&BIAS_DAC] of [MCP47FEB_LockSALCK]) with the contents it has. *)
Inductive href : Set :=
| InMem (p : ptr)
| Local (h : MCP47FEB_TypeDef).

(** One call into the HAL, as seen on the bus.  [Master_Transmit] carries
    the [Size] bytes that are sent, [Master_Receive] the number of bytes
    requested. *)
Inductive bus_event : Type :=
| Master_Transmit (h : I2C_HandleTypeDef) (DevAddress : Z) (pData : list Z) (Timeout : Z)
| Master_Receive (h : I2C_HandleTypeDef) (DevAddress : Z) (Size : Z) (Timeout : Z)
| IsDeviceReady (h : I2C_HandleTypeDef) (DevAddress : Z) (Trials : Z) (Timeout : Z).

(** The bus transport the driver is linked against, over a state [D] of
    the peripheral and of the devices behind it.  [MCP47FEB_I2C_DELAY] is
    the timeout macro of the absent header. *)
Class Platform (D : Type) : Type := {
  MCP47FEB_I2C_DELAY : Z;
  HAL_I2C_Master_Transmit :
    I2C_HandleTypeDef -> Z -> list Z -> Z -> D -> HAL_StatusTypeDef * D;
  HAL_I2C_Master_Receive :
    I2C_HandleTypeDef -> Z -> Z -> Z -> D -> HAL_StatusTypeDef * list Z * D;
  HAL_I2C_IsDeviceReady :
    I2C_HandleTypeDef -> Z -> Z -> Z -> D -> HAL_StatusTypeDef * D
}.

(** ** The world the driver runs in *)

Record World (D : Type) : Type := mkWorld {
  handles : ptr -> MCP47FEB_TypeDef;  (* memory holding the device handles *)
  readBuffer : list Z;                (* static uint8_t readBuffer[5] *)
  bus : D;                            (* transport and devices *)
  trace : list bus_event              (* HAL calls so far, oldest first *)
}.
Arguments mkWorld {D} _ _ _ _.
Arguments handles {D} _ _.
Arguments readBuffer {D} _.
Arguments bus {D} _.
Arguments trace {D} _.

(** Bytes a receive stores into a [uint8_t] buffer: position [i] of the
    buffer is overwritten for each of the first [n] bytes delivered; a
    transfer that delivers fewer bytes leaves the rest as it was. *)
Fixpoint write_buffer (buffer data : list Z) (n : nat) {struct n} : list Z :=
  match n, data, buffer with
  | S n', d :: data', _ :: buffer' => u8 d :: write_buffer buffer' data' n'
  | _, _, _ => buffer
  end.

(** Update of one handle in memory. *)
Definition poke (m : ptr -> MCP47FEB_TypeDef) (p : ptr) (h : MCP47FEB_TypeDef)
  : ptr -> MCP47FEB_TypeDef :=
  fun q => if Nat.eqb q p then h else m q.

Section Driver.

Context {D : Type} `{P : Platform D}.

(** State monad over the world. *)
Definition M (A : Type) : Type := World D -> A * World D.

Definition ret {A} (a : A) : M A := fun w => (a, w).

Definition bind {A B} (c : M A) (k : A -> M B) : M B :=
  fun w => k (fst (c w)) (snd (c w)).

Notation "x <- c ;; k" := (bind c (fun x => k))
  (at level 61, c at next level, right associativity).
Notation "c ;; k" := (bind c (fun _ => k))
  (at level 61, right associativity).

(** [*dac] *)
Definition deref (dac : href) (w : World D) : MCP47FEB_TypeDef :=
  match dac with
  | InMem p => handles w p
  | Local h => h
  end.

(** [dac->devAddr = a] and [dac->hi2c = h] *)
Definition set_devAddr (dac : ptr) (a : Z) : M unit :=
  fun w => (tt, mkWorld (poke (handles w) dac (mkDAC a (hi2c (handles w dac))))
                        (readBuffer w) (bus w) (trace w)).

Definition set_hi2c (dac : ptr) (h : I2C_HandleTypeDef) : M unit :=
  fun w => (tt, mkWorld (poke (handles w) dac (mkDAC (devAddr (handles w dac)) h))
                        (readBuffer w) (bus w) (trace w)).

(** Run a read that fills the static [readBuffer]. *)
Definition on_readBuffer (f : list Z -> M (list Z)) : M unit :=
  fun w => (tt, mkWorld (handles (snd (f (readBuffer w) w)))
                        (fst (f (readBuffer w) w))
                        (bus (snd (f (readBuffer w) w)))
                        (trace (snd (f (readBuffer w) w)))).

Definition get_readBuffer : M (list Z) := fun w => (readBuffer w, w).

(** [dac->devAddr<<1], passed as the [uint16_t DevAddress] of the HAL. *)
Definition bus_address (dac : MCP47FEB_TypeDef) : Z :=
  u16 (Z.shiftl (devAddr dac) 1).

(** [HAL_I2C_Master_Transmit(dac->hi2c, dac->devAddr<<1, pData, Size,
    MCP47FEB_I2C_DELAY)]; the status is discarded by every caller. *)
Definition transmit (dac : href) (pData : list Z) (Size : nat) : M unit :=
  fun w =>
    let dac := deref dac w in
    (tt, mkWorld (handles w) (readBuffer w)
           (snd (HAL_I2C_Master_Transmit (hi2c dac) (bus_address dac)
                   (firstn Size pData) MCP47FEB_I2C_DELAY (bus w)))
           (trace w ++ [Master_Transmit (hi2c dac) (bus_address dac)
                          (firstn Size pData) MCP47FEB_I2C_DELAY])).

(** [HAL_I2C_Master_Receive(dac->hi2c, dac->devAddr<<1, buffer, Size,
    MCP47FEB_I2C_DELAY)]; returns the buffer as the call leaves it. *)
Definition receive (dac : href) (buffer : list Z) (Size : nat) : M (list Z) :=
  fun w =>
    let dac := deref dac w in
    (write_buffer buffer
       (snd (fst (HAL_I2C_Master_Receive (hi2c dac) (bus_address dac)
                    (Z.of_nat Size) MCP47FEB_I2C_DELAY (bus w))))
       Size,
     mkWorld (handles w) (readBuffer w)
       (snd (HAL_I2C_Master_Receive (hi2c dac) (bus_address dac)
               (Z.of_nat Size) MCP47FEB_I2C_DELAY (bus w)))
       (trace w ++ [Master_Receive (hi2c dac) (bus_address dac)
                      (Z.of_nat Size) MCP47FEB_I2C_DELAY])).

(** *** Lifecycle *)

Definition MCP47FEB_Init (dac : ptr) (devAddr : Z) (hi2c : I2C_HandleTypeDef) : M unit :=
  set_devAddr dac devAddr ;;
  set_hi2c dac hi2c.

Definition MCP47FEB_IsReady (dac : ptr) : M HAL_StatusTypeDef :=
  fun w =>
    let h := handles w dac in
    (fst (HAL_I2C_IsDeviceReady (hi2c h) (bus_address h) 2 2 (bus w)),
     mkWorld (handles w) (readBuffer w)
       (snd (HAL_I2C_IsDeviceReady (hi2c h) (bus_address h) 2 2 (bus w)))
       (trace w ++ [IsDeviceReady (hi2c h) (bus_address h) 2 2])).

(** *** Framing *)

Definition _ReadEpAddr (dac : href) (REG : Z) (buffer : list Z)
  : M (list Z) :=
  let readReg := u8 (Z.lor 0x80 (Z.lor READ (Z.shiftl REG 3))) in
  transmit dac [readReg] 1 ;;
  receive dac buffer 2.

Definition _ReadAddr (dac : href) (REG : Z) (buffer : list Z)
  : M (list Z) :=
  let readReg := u8 (Z.lor READ (Z.shiftl REG 3)) in
  transmit dac [readReg] 1 ;;
  receive dac buffer 2.

Definition _FastWrite (dac : href) (REG : Z) (DATA : Z) : M unit :=
  let payload0 := u8 (Z.lor (Z.shiftl REG 3) WRITE) in
  let payload1 := u8 (Z.land (Z.shiftr DATA 8) 0xFF) in
  let payload2 := u8 (Z.land DATA 0xFF) in
  transmit dac [payload0; payload1; payload2] 3.

Definition _WriteAddr (dac : href) (REG : Z) (data : Z) : M unit :=
  let payload0 := u8 (Z.lor REG WRITE) in
  if Z.eqb REG GAIN_REG
  then transmit dac [payload0; data; 0] 3
  else transmit dac [payload0; 0; data] 3.

(** *** Address lock *)

Definition MCP47FEB_UnlockSALCK (dac : ptr) : M unit :=
  _WriteAddr (InMem dac) (Z.lor SALCK UNLOCK_SALCK) 0.

Definition MCP47FEB_LockSALCK (dac : ptr) (addr : Z) : M unit :=
  fun w =>
    let BIAS_DAC := mkDAC addr (hi2c (handles w dac)) in
    _WriteAddr (Local BIAS_DAC) (Z.lor SALCK UNLOCK_SALCK) 0 w.

(** *** Power-down *)

Definition MCP47FEB_GetPowerDown (dac : ptr) (channel : Z) : M Z :=
  on_readBuffer (_ReadAddr (InMem dac) PD_REG) ;;
  rb <- get_readBuffer ;;
  let _powerDown0 := u8 (Z.land (nth 1 rb 0) 0x03) in
  let _powerDown1 := u8 (Z.shiftr (Z.land (nth 1 rb 0) 0x0C) 2) in
  ret (if Z.eqb channel 0 then _powerDown0 else _powerDown1).

Definition MCP47FEB_SetPowerDown (dac : ptr) (val0 val1 : Z) : M unit :=
  _WriteAddr (InMem dac) PD_REG (u8 (Z.lor val0 (Z.shiftl val1 2))).

Definition MCP47FEB_GetPowerDownEp (dac : ptr) (channel : Z) : M Z :=
  on_readBuffer (_ReadEpAddr (InMem dac) PD_REG) ;;
  rb <- get_readBuffer ;;
  let _powerDownEp0 := u8 (Z.land (nth 1 rb 0) 0x03) in
  let _powerDownEp1 := u8 (Z.shiftr (Z.land (nth 1 rb 0) 0x0C) 2) in
  ret (if Z.eqb channel 0 then _powerDownEp0 else _powerDownEp1).

(** *** Gain *)

Definition MCP47FEB_GetGain (dac : ptr) (channel : Z) : M Z :=
  buff <- _ReadAddr (InMem dac) GAIN_REG [0; 0; 0; 0; 0] ;;
  let _gain0 := u8 (Z.land (nth 0 buff 0) 0x01) in
  let _gain1 := u8 (Z.shiftr (Z.land (nth 0 buff 0) 0x02) 1) in
  ret (if Z.eqb channel 0 then _gain0 else _gain1).

Definition MCP47FEB_SetGain (dac : ptr) (val0 val1 : Z) : M unit :=
  _WriteAddr (InMem dac) GAIN_REG (u8 (Z.lor val0 (Z.shiftl val1 1))).

Definition MCP47FEB_GetGainEp (dac : ptr) (channel : Z) : M Z :=
  on_readBuffer (_ReadEpAddr (InMem dac) GAIN_REG) ;;
  rb <- get_readBuffer ;;
  let _gainEp0 := u8 (Z.land (nth 0 rb 0) 0x01) in
  let _gainEp1 := u8 (Z.shiftr (Z.land (nth 0 rb 0) 0x02) 1) in
  ret (if Z.eqb channel 0 then _gainEp0 else _gainEp1).

(** *** Voltage reference ([channel], [val0], [val1] are [uint8_t]) *)

Definition MCP47FEB_GetVref (dac : ptr) (channel : Z) : M Z :=
  on_readBuffer (_ReadAddr (InMem dac) VREF_REG) ;;
  rb <- get_readBuffer ;;
  let _intVref0 := u8 (Z.land (nth 1 rb 0) 0x03) in
  let _intVref1 := u8 (Z.shiftr (Z.land (nth 1 rb 0) 0x0C) 2) in
  ret (if Z.eqb channel 0 then _intVref0 else _intVref1).

Definition MCP47FEB_SetVref (dac : ptr) (val0 val1 : Z) : M unit :=
  _WriteAddr (InMem dac) VREF_REG (u8 (Z.lor val0 (Z.shiftl val1 2))).

Definition MCP47FEB_GetVrefEp (dac : ptr) (channel : Z) : M Z :=
  on_readBuffer (_ReadEpAddr (InMem dac) VREF_REG) ;;
  rb <- get_readBuffer ;;
  let _intVrefEp0 := u8 (Z.land (nth 1 rb 0) 0x03) in
  let _intVrefEp1 := u8 (Z.shiftr (Z.land (nth 1 rb 0) 0x0C) 2) in
  ret (if Z.eqb channel 0 then _intVrefEp0 else _intVrefEp1).

(** *** Output value *)

Definition MCP47FEB_GetValue (dac : ptr) (channel : Z) : M Z :=
  on_readBuffer (_ReadAddr (InMem dac) (u8 (Z.shiftl channel 3))) ;;
  rb <- get_readBuffer ;;
  ret (u16 (word (Z.land (nth 0 rb 0) 0x0F) (nth 1 rb 0))).

Definition MCP47FEB_AnalogWrite (dac : ptr) (val0 val1 : Z) : M unit :=
  let val0 := u16 (Z.land val0 0xFFF) in
  let val1 := u16 (Z.land val1 0xFFF) in
  _FastWrite (InMem dac) DAC0_REG val0 ;;
  _FastWrite (InMem dac) DAC1_REG val1.

(** *** Bulk persistence.  The operands of [|] in the gain and
    power-down arguments are evaluated left to right; C leaves the order
    to the compiler, the other one follows. *)

Definition MCP47FEB_EEPROMWrite (dac : ptr) : M unit :=
  v0 <- MCP47FEB_GetValue dac 0 ;;
  _FastWrite (InMem dac) DAC0_EP_REG v0 ;;
  v1 <- MCP47FEB_GetValue dac 1 ;;
  _FastWrite (InMem dac) DAC1_EP_REG v1 ;;
  vref0 <- MCP47FEB_GetVref dac 0 ;;
  vref1 <- MCP47FEB_GetVref dac 1 ;;
  _FastWrite (InMem dac) VREF_EP_REG (u16 (Z.lor vref0 (Z.shiftl vref1 2))) ;;
  gain0 <- MCP47FEB_GetGain dac 0 ;;
  gain1 <- MCP47FEB_GetGain dac 1 ;;
  _FastWrite (InMem dac) GAIN_EP_REG (u16 (Z.shiftl (Z.lor gain0 (Z.shiftl gain1 1)) 8)) ;;
  pd0 <- MCP47FEB_GetPowerDown dac 0 ;;
  pd1 <- MCP47FEB_GetPowerDown dac 1 ;;
  _FastWrite (InMem dac) PD_EP_REG (u16 (Z.lor pd0 (Z.shiftl pd1 2))).

(** The same function when the compiler evaluates the operands of [|]
    right to left: the channel-1 accessor of the gain and power-down
    arguments is then called before the channel-0 one. *)
Definition MCP47FEB_EEPROMWrite_rtl (dac : ptr) : M unit :=
  v0 <- MCP47FEB_GetValue dac 0 ;;
  _FastWrite (InMem dac) DAC0_EP_REG v0 ;;
  v1 <- MCP47FEB_GetValue dac 1 ;;
  _FastWrite (InMem dac) DAC1_EP_REG v1 ;;
  vref0 <- MCP47FEB_GetVref dac 0 ;;
  vref1 <- MCP47FEB_GetVref dac 1 ;;
  _FastWrite (InMem dac) VREF_EP_REG (u16 (Z.lor vref0 (Z.shiftl vref1 2))) ;;
  gain1 <- MCP47FEB_GetGain dac 1 ;;
  gain0 <- MCP47FEB_GetGain dac 0 ;;
  _FastWrite (InMem dac) GAIN_EP_REG (u16 (Z.shiftl (Z.lor gain0 (Z.shiftl gain1 1)) 8)) ;;
  pd1 <- MCP47FEB_GetPowerDown dac 1 ;;
  pd0 <- MCP47FEB_GetPowerDown dac 0 ;;
  _FastWrite (InMem dac) PD_EP_REG (u16 (Z.lor pd0 (Z.shiftl pd1 2))).

End Driver.

(** ** Vocabulary of the properties *)

Section Frames.

Context {D : Type} `{P : Platform D}.

(** The two HAL calls of a streamed read with command byte [cmd]. *)
Definition read_frame (h : MCP47FEB_TypeDef) (cmd : Z) : list bus_event :=
  [Master_Transmit (hi2c h) (bus_address h) [cmd] MCP47FEB_I2C_DELAY;
   Master_Receive (hi2c h) (bus_address h) 2 MCP47FEB_I2C_DELAY].

(** The HAL call of a three-byte write. *)
Definition write_frame (h : MCP47FEB_TypeDef) (b0 b1 b2 : Z) : list bus_event :=
  [Master_Transmit (hi2c h) (bus_address h) [b0; b1; b2] MCP47FEB_I2C_DELAY].

(** A fast write of the 16-bit value [v] to register [r]. *)
Definition fast_write_frame (h : MCP47FEB_TypeDef) (r v : Z) : list bus_event :=
  write_frame h (Z.lor (Z.shiftl r 3) 0x00)
                (Z.land (Z.shiftr v 8) 0xFF) (Z.land v 0xFF).

End Frames.

(** The register indices of the working bank. *)
Definition working_registers : list Z :=
  [DAC0_REG; DAC1_REG; VREF_REG; PD_REG; GAIN_REG; WL_REG].

(** Payloads of the three-byte transmissions of a trace, in order. *)
Fixpoint writes_of (t : list bus_event) : list (list Z) :=
  match t with
  | [] => []
  | Master_Transmit _ _ [b0; b1; b2] _ :: t' => [b0; b1; b2] :: writes_of t'
  | _ :: t' => writes_of t'
  end.

(** The contents of a [uint8_t] array. *)
Definition bytes (l : list Z) : Prop := Forall (fun b => 0 <= b < 256) l.

(** Bits [lo .. lo+width-1] of a byte. *)
Definition field (b lo width : Z) : Z := Z.land (Z.shiftr b lo) (Z.ones width).

Section Selection.

Context {D : Type} `{P : Platform D}.

(** What it is for the accessor [get], which decodes the byte [b] it
    has read, to treat [channel] as channel 1 in the world [w]: channel 0
    yields the low field of [b], [channel] yields the next field, the
    call with [channel] is the call with channel 1, and both results fit
    the [width] bits of a field. *)
Definition selects_channel_1 (get : ptr -> Z -> M Z) (b width : Z)
           (w : World D) (dac : ptr) (channel : Z) : Prop :=
  fst (get dac 0 w) = field b 0 width
  /\ fst (get dac channel w) = field b width width
  /\ get dac channel w = get dac 1 w
  /\ 0 <= fst (get dac 0 w) <= 2 ^ width - 1
  /\ 0 <= fst (get dac channel w) <= 2 ^ width - 1.

End Selection.

(** ** Sequences of driver calls *)

(** A call of one operation of the driver on a handle that has been
    initialised, with its arguments. *)
Inductive api_call : Set :=
| Call_IsReady
| Call_UnlockSALCK
| Call_LockSALCK (addr : Z)
| Call_GetPowerDown (channel : Z)
| Call_SetPowerDown (val0 val1 : Z)
| Call_GetPowerDownEp (channel : Z)
| Call_GetGain (channel : Z)
| Call_SetGain (val0 val1 : Z)
| Call_GetGainEp (channel : Z)
| Call_GetVref (channel : Z)
| Call_SetVref (val0 val1 : Z)
| Call_GetVrefEp (channel : Z)
| Call_GetValue (channel : Z)
| Call_AnalogWrite (val0 val1 : Z)
| Call_EEPROMWrite.

Section Calls.

Context {D : Type} `{P : Platform D}.

(** The world after one call on the handle at [dac]. *)
Definition run_call (dac : ptr) (c : api_call) (w : World D) : World D :=
  match c with
  | Call_IsReady => snd (MCP47FEB_IsReady dac w)
  | Call_UnlockSALCK => snd (MCP47FEB_UnlockSALCK dac w)
  | Call_LockSALCK addr => snd (MCP47FEB_LockSALCK dac addr w)
  | Call_GetPowerDown channel => snd (MCP47FEB_GetPowerDown dac channel w)
  | Call_SetPowerDown val0 val1 => snd (MCP47FEB_SetPowerDown dac val0 val1 w)
  | Call_GetPowerDownEp channel => snd (MCP47FEB_GetPowerDownEp dac channel w)
  | Call_GetGain channel => snd (MCP47FEB_GetGain dac channel w)
  | Call_SetGain val0 val1 => snd (MCP47FEB_SetGain dac val0 val1 w)
  | Call_GetGainEp channel => snd (MCP47FEB_GetGainEp dac channel w)
  | Call_GetVref channel => snd (MCP47FEB_GetVref dac channel w)
  | Call_SetVref val0 val1 => snd (MCP47FEB_SetVref dac val0 val1 w)
  | Call_GetVrefEp channel => snd (MCP47FEB_GetVrefEp dac channel w)
  | Call_GetValue channel => snd (MCP47FEB_GetValue dac channel w)
  | Call_AnalogWrite val0 val1 => snd (MCP47FEB_AnalogWrite dac val0 val1 w)
  | Call_EEPROMWrite => snd (MCP47FEB_EEPROMWrite dac w)
  end.

(** The world after a sequence of calls, each on a handle of its own. *)
Fixpoint run_calls (cs : list (ptr * api_call)) (w : World D) : World D :=
  match cs with
  | [] => w
  | (dac, c) :: cs' => run_calls cs' (run_call dac c w)
  end.

End Calls.

(** ** A simulated device *)

(** Modelled from the spec: the simulated device of the round-trip
    property, one that echoes written register bits back on read; no such
    device is part of the driver's sources.  It answers at one bus
    address and keeps two data bytes per register.  A transmission of
    three bytes is an addressed write as the driver frames it (the command
    byte is the register index, unshifted) and stores its two data bytes;
    a transmission of one byte is a read command and selects the register
    held in bits 7..3 of that byte (the mirror bit 7 being index bit 4);
    a receive delivers the data bytes of the selected register. *)
Record SimDevice : Type := mkSim {
  sim_address : Z;
  sim_regs : Z -> Z * Z;
  sim_selected : Z
}.

Definition sim_transmit (h : I2C_HandleTypeDef) (DevAddress : Z) (pData : list Z)
           (Timeout : Z) (d : SimDevice) : HAL_StatusTypeDef * SimDevice :=
  if Z.eqb DevAddress (sim_address d) then
    match pData with
    | [cmd] =>
        (HAL_OK, mkSim (sim_address d) (sim_regs d) (Z.land (Z.shiftr cmd 3) 0x1F))
    | [cmd; b1; b2] =>
        (HAL_OK, mkSim (sim_address d)
                   (fun r => if Z.eqb r cmd then (b1, b2) else sim_regs d r)
                   (sim_selected d))
    | _ => (HAL_ERROR, d)
    end
  else (HAL_ERROR, d).

Definition sim_receive (h : I2C_HandleTypeDef) (DevAddress Size Timeout : Z)
           (d : SimDevice) : HAL_StatusTypeDef * list Z * SimDevice :=
  if Z.eqb DevAddress (sim_address d) then
    (HAL_OK,
     firstn (Z.to_nat Size)
       [fst (sim_regs d (sim_selected d)); snd (sim_regs d (sim_selected d))],
     d)
  else (HAL_ERROR, [], d).

Definition sim_ready (h : I2C_HandleTypeDef) (DevAddress Trials Timeout : Z)
           (d : SimDevice) : HAL_StatusTypeDef * SimDevice :=
  (if Z.eqb DevAddress (sim_address d) then HAL_OK else HAL_ERROR, d).

(** The platform whose bus carries the simulated device, for a timeout
    [delay]. *)
Definition SimPlatform (delay : Z) : Platform SimDevice :=
  {| MCP47FEB_I2C_DELAY := delay;
     HAL_I2C_Master_Transmit := sim_transmit;
     HAL_I2C_Master_Receive := sim_receive;
     HAL_I2C_IsDeviceReady := sim_ready |}.

(** A world to run the driver in: every handle is bound to the address
    [BASE_ADDR] on transport 0, the receive buffer is as at program start,
    the simulated device sits at bus address [0xC0] with all its registers
    zero, and nothing has been sent yet. *)
Definition bench : World SimDevice :=
  mkWorld (fun _ => mkDAC BASE_ADDR 0%nat) [0; 0; 0; 0; 0]
          (mkSim 0xC0 (fun _ => (0, 0)) 0) [].

(** The same world with the simulated device at another bus address, so
    that nothing answers the handles. *)
Definition bench_absent : World SimDevice :=
  mkWorld (fun _ => mkDAC BASE_ADDR 0%nat) [0x11; 0x0B; 0; 0; 0]
          (mkSim 0xC2 (fun _ => (0, 0)) 0) [].

(** The world [bench] with the bytes [0xAB], [0xCD] in register 0 of the
    simulated device. *)
Definition bench_loaded : World SimDevice :=
  mkWorld (fun _ => mkDAC BASE_ADDR 0%nat) [0; 0; 0; 0; 0]
          (mkSim 0xC0 (fun r => if Z.eqb r 0 then (0xAB, 0xCD) else (0, 0)) 0) [].

(** ** Vocabulary of the further properties *)

Section Protocol.

Context {D : Type} `{P : Platform D}.

(** The HAL calls the driver makes for a handle [h]: transmissions of one
    or three bytes and receptions of two bytes at the bus address of [h],
    with the timeout [MCP47FEB_I2C_DELAY]; the probe with two trials and
    timeout 2; and, at whatever address, the transmission [0xD2; 0; 0] of
    [MCP47FEB_LockSALCK].  All of them go through the transport of [h]. *)
Definition expected_event (h : MCP47FEB_TypeDef) (e : bus_event) : Prop :=
  match e with
  | Master_Transmit i a d t =>
      i = hi2c h /\ t = MCP47FEB_I2C_DELAY /\ bytes d
      /\ ((a = bus_address h /\ (length d = 1%nat \/ length d = 3%nat))
          \/ d = [0xD2; 0; 0])
  | Master_Receive i a n t =>
      i = hi2c h /\ a = bus_address h /\ n = 2 /\ t = MCP47FEB_I2C_DELAY
  | IsDeviceReady i a trials t =>
      i = hi2c h /\ a = bus_address h /\ trials = 2 /\ t = 2
  end.

(** A run from [w] to [w'] on behalf of the handles at the pointers in
    [S]: no handle changes, the receive buffer keeps its length and all
    but its first two positions and stays an array of bytes, and the
    trace grows by calls expected for those handles. *)
Definition evolves (S : ptr -> Prop) (w w' : World D) : Prop :=
  handles w' = handles w
  /\ length (readBuffer w') = length (readBuffer w)
  /\ skipn 2 (readBuffer w') = skipn 2 (readBuffer w)
  /\ (bytes (readBuffer w) -> bytes (readBuffer w'))
  /\ exists new,
       trace w' = trace w ++ new
       /\ Forall (fun e => exists p, S p /\ expected_event (handles w p) e) new.

(** A computation every run of which is such a run. *)
Definition polite {A : Type} (S : ptr -> Prop) (c : M A) : Prop :=
  forall w, evolves S w (snd (c w)).

(** A read into a buffer passed by the caller that changes only the first
    two positions of the buffer. *)
Definition fills (f : list Z -> M (list Z)) : Prop :=
  forall (buffer : list Z) (w : World D),
    length (fst (f buffer w)) = length buffer
    /\ skipn 2 (fst (f buffer w)) = skipn 2 buffer
    /\ (bytes buffer -> bytes (fst (f buffer w))).

(** The bytes the transport delivers to a streamed read with command byte
    [cmd] issued for the handle [h] when the bus is in state [d]. *)
Definition delivered (h : MCP47FEB_TypeDef) (cmd : Z) (d : D) : list Z :=
  snd (fst (HAL_I2C_Master_Receive (hi2c h) (bus_address h) 2 MCP47FEB_I2C_DELAY
              (snd (HAL_I2C_Master_Transmit (hi2c h) (bus_address h) [cmd]
                      MCP47FEB_I2C_DELAY d)))).

End Protocol.

(** ** Arithmetic of the conversions *)

Lemma u8_small x : 0 <= x < 256 -> u8 x = x.
Proof. intros Hx. unfold u8. apply Z.mod_small. simpl. lia. Qed.

Lemma u16_small x : 0 <= x < 65536 -> u16 x = x.
Proof. intros Hx. unfold u16. apply Z.mod_small. simpl. lia. Qed.

Lemma land_ones_range x n : 0 <= n -> 0 <= Z.land x (Z.ones n) < 2 ^ n.
Proof.
  intros Hn. rewrite Z.land_ones by assumption.
  apply Z.mod_pos_bound. apply Z.pow_pos_nonneg; lia.
Qed.

Lemma land_FF_range x : 0 <= Z.land x 0xFF < 256.
Proof. exact (land_ones_range x 8 ltac:(lia)). Qed.

Lemma shiftl3_range r : 0 <= r < 32 -> 0 <= Z.lor (Z.shiftl r 3) 0 < 256.
Proof.
  intros Hr. rewrite Z.lor_0_r, Z.shiftl_mul_pow2 by lia.
  change (2 ^ 3) with 8. lia.
Qed.

Lemma field_range b lo width : 0 <= width -> 0 <= field b lo width < 2 ^ width.
Proof. intros Hw. unfold field. apply land_ones_range, Hw. Qed.

Lemma pair_lo b : u8 (Z.land b 0x03) = field b 0 2.
Proof.
  pose proof (field_range b 0 2 ltac:(lia)) as Hf. change (2 ^ 2) with 4 in Hf.
  unfold field in *. rewrite Z.shiftr_0_r in *. change (Z.ones 2) with 3 in *.
  apply u8_small. lia.
Qed.

Lemma pair_hi b : u8 (Z.shiftr (Z.land b 0x0C) 2) = field b 2 2.
Proof.
  pose proof (field_range b 2 2 ltac:(lia)) as Hf. change (2 ^ 2) with 4 in Hf.
  unfold field in *. rewrite Z.shiftr_land. change (Z.shiftr 12 2) with 3.
  change (Z.ones 2) with 3 in *. apply u8_small. lia.
Qed.

Lemma bit_lo b : u8 (Z.land b 0x01) = field b 0 1.
Proof.
  pose proof (field_range b 0 1 ltac:(lia)) as Hf. change (2 ^ 1) with 2 in Hf.
  unfold field in *. rewrite Z.shiftr_0_r in *. change (Z.ones 1) with 1 in *.
  apply u8_small. lia.
Qed.

Lemma bit_hi b : u8 (Z.shiftr (Z.land b 0x02) 1) = field b 1 1.
Proof.
  pose proof (field_range b 1 1 ltac:(lia)) as Hf. change (2 ^ 1) with 2 in Hf.
  unfold field in *. rewrite Z.shiftr_land. change (Z.shiftr 2 1) with 1.
  change (Z.ones 1) with 1 in *. apply u8_small. lia.
Qed.

Lemma pack_pairs a b :
  0 <= a <= 3 -> 0 <= b <= 3 ->
  0 <= Z.lor a (Z.shiftl b 2) < 16
  /\ Z.land (Z.shiftr (Z.lor a (Z.shiftl b 2)) 8) 0xFF = 0
  /\ Z.land (Z.lor a (Z.shiftl b 2)) 0xFF = Z.lor a (Z.shiftl b 2).
Proof.
  intros Ha Hb.
  assert (Ea : a = 0 \/ a = 1 \/ a = 2 \/ a = 3) by lia.
  assert (Eb : b = 0 \/ b = 1 \/ b = 2 \/ b = 3) by lia.
  destruct Ea as [-> | [-> | [-> | ->]]];
    destruct Eb as [-> | [-> | [-> | ->]]]; vm_compute; intuition discriminate.
Qed.

Lemma pack_gain a b :
  0 <= a <= 1 -> 0 <= b <= 1 ->
  0 <= Z.shiftl (Z.lor a (Z.shiftl b 1)) 8 < 65536
  /\ Z.land (Z.shiftr (Z.shiftl (Z.lor a (Z.shiftl b 1)) 8) 8) 0xFF = Z.lor a (Z.shiftl b 1)
  /\ Z.land (Z.shiftl (Z.lor a (Z.shiftl b 1)) 8) 0xFF = 0.
Proof.
  intros Ha Hb.
  assert (Ea : a = 0 \/ a = 1) by lia.
  assert (Eb : b = 0 \/ b = 1) by lia.
  destruct Ea as [-> | ->]; destruct Eb as [-> | ->]; vm_compute; intuition discriminate.
Qed.

Lemma u8_range x : 0 <= u8 x < 256.
Proof. unfold u8. apply Z.mod_pos_bound. reflexivity. Qed.

Lemma write_buffer_bytes buffer data n : bytes buffer -> bytes (write_buffer buffer data n).
Proof.
  unfold bytes. revert buffer data.
  induction n as [| n IH]; intros buffer data Hb; cbn [write_buffer].
  - exact Hb.
  - destruct data as [| d data]; [exact Hb |].
    destruct buffer as [| b buffer]; [exact Hb |].
    inversion Hb; subst. constructor; [apply u8_range | apply IH; assumption].
Qed.

Lemma write_buffer_skipn buffer data n :
  skipn n (write_buffer buffer data n) = skipn n buffer.
Proof.
  revert buffer data. induction n as [| n IH]; intros buffer data; cbn [write_buffer].
  - reflexivity.
  - destruct data as [| d data]; [reflexivity |].
    destruct buffer as [| b buffer]; [reflexivity |].
    cbn [skipn]. apply IH.
Qed.

Lemma write_buffer_length buffer data n :
  length (write_buffer buffer data n) = length buffer.
Proof.
  revert buffer data. induction n as [| n IH]; intros buffer data; cbn [write_buffer].
  - reflexivity.
  - destruct data as [| d data]; [reflexivity |].
    destruct buffer as [| b buffer]; [reflexivity |].
    cbn [length]. now rewrite IH.
Qed.

Lemma nth_bytes l i : bytes l -> 0 <= nth i l 0 < 256.
Proof.
  unfold bytes. intros Hl. revert i.
  induction Hl as [| b l Hb _ IH]; intros [| i]; cbn [nth]; try lia. apply IH.
Qed.

Lemma word_nibble_byte x y :
  0 <= y < 256 ->
  word (Z.land x 0x0F) y = (x mod 16) * 256 + y
  /\ 0 <= word (Z.land x 0x0F) y < 4096.
Proof.
  intros Hy. unfold word.
  change 0x0F with (Z.ones 4). rewrite Z.land_ones by lia. change (2 ^ 4) with 16.
  pose proof (Z.mod_pos_bound x 16 ltac:(lia)) as Hx.
  assert (Hdisj : Z.land (Z.shiftl (x mod 16) 8) y = 0).
  { apply Z.bits_inj'. intros n Hn. rewrite Z.land_spec, Z.bits_0.
    destruct (Z.ltb_spec n 8) as [Hlt | Hge].
    - rewrite Z.shiftl_spec_low by assumption. reflexivity.
    - replace (Z.testbit y n) with false; [apply andb_false_r |].
      symmetry. destruct (Z.eq_dec y 0) as [-> | Hy0]; [apply Z.bits_0 |].
      apply Z.bits_above_log2; [lia |].
      assert (Z.log2 y < 8) by (apply Z.log2_lt_pow2; [lia | simpl; lia]). lia. }
  assert (Hsum : Z.lor (Z.shiftl (x mod 16) 8) y = (x mod 16) * 256 + y).
  { pose proof (Z.add_lor_land (Z.shiftl (x mod 16) 8) y) as Hadd.
    rewrite Hdisj, Z.shiftl_mul_pow2 in Hadd by lia. change (2 ^ 8) with 256 in Hadd.
    rewrite Z.shiftl_mul_pow2 by lia. change (2 ^ 8) with 256. lia. }
  rewrite Hsum. lia.
Qed.

Create HintDb driver.

#[global] Hint Unfold MCP47FEB_Init MCP47FEB_IsReady MCP47FEB_UnlockSALCK
  MCP47FEB_LockSALCK MCP47FEB_GetPowerDown MCP47FEB_SetPowerDown
  MCP47FEB_GetPowerDownEp MCP47FEB_GetGain MCP47FEB_SetGain MCP47FEB_GetGainEp
  MCP47FEB_GetVref MCP47FEB_SetVref MCP47FEB_GetVrefEp MCP47FEB_GetValue
  MCP47FEB_AnalogWrite MCP47FEB_EEPROMWrite
  _ReadAddr _ReadEpAddr _FastWrite _WriteAddr
  transmit receive on_readBuffer get_readBuffer set_devAddr set_hi2c
  bind ret : driver.

(** Unfold the driver down to the HAL calls and project the world. *)
Ltac run_driver :=
  repeat autounfold with driver;
  cbn [snd fst trace handles readBuffer bus firstn deref].

Section Properties.

Context {D : Type} `{P : Platform D}.

(** *** Traces and results of the single operations *)

Lemma FastWrite_trace (w : World D) (dac : href) (r v : Z) :
  0 <= r < 32 ->
  trace (snd (_FastWrite dac r v w)) = trace w ++ fast_write_frame (deref dac w) r v.
Proof.
  intros Hr. unfold fast_write_frame, write_frame. run_driver. unfold WRITE.
  rewrite (u8_small _ (shiftl3_range r Hr)), !(u8_small _ (land_FF_range _)).
  reflexivity.
Qed.

Lemma GetValue_trace (w : World D) (dac : ptr) (channel : Z) :
  trace (snd (MCP47FEB_GetValue dac channel w)) =
    trace w ++ read_frame (handles w dac)
                 (u8 (Z.lor READ (Z.shiftl (u8 (Z.shiftl channel 3)) 3))).
Proof. unfold read_frame. run_driver. now rewrite <- app_assoc. Qed.

Lemma GetVref_trace (w : World D) (dac : ptr) (channel : Z) :
  trace (snd (MCP47FEB_GetVref dac channel w)) =
    trace w ++ read_frame (handles w dac) 0x46.
Proof. unfold read_frame. run_driver. now rewrite <- app_assoc. Qed.

Lemma GetGain_trace (w : World D) (dac : ptr) (channel : Z) :
  trace (snd (MCP47FEB_GetGain dac channel w)) =
    trace w ++ read_frame (handles w dac) 0x56.
Proof. unfold read_frame. run_driver. now rewrite <- app_assoc. Qed.

Lemma GetPowerDown_trace (w : World D) (dac : ptr) (channel : Z) :
  trace (snd (MCP47FEB_GetPowerDown dac channel w)) =
    trace w ++ read_frame (handles w dac) 0x4E.
Proof. unfold read_frame. run_driver. now rewrite <- app_assoc. Qed.

Lemma GetValue_range (w : World D) (dac : ptr) (channel : Z) :
  0 <= fst (MCP47FEB_GetValue dac channel w) < 65536.
Proof. run_driver. unfold u16 at 1. apply Z.mod_pos_bound. reflexivity. Qed.

(** The value returned by [MCP47FEB_GetValue]: the low nibble of the first
    byte of the receive buffer above its second byte, twelve bits in
    all. *)
Lemma GetValue_value (w : World D) (dac : ptr) (channel : Z) :
  bytes (readBuffer w) ->
  fst (MCP47FEB_GetValue dac channel w) =
    (nth 0 (readBuffer (snd (MCP47FEB_GetValue dac channel w))) 0 mod 16) * 256
    + nth 1 (readBuffer (snd (MCP47FEB_GetValue dac channel w))) 0
  /\ 0 <= fst (MCP47FEB_GetValue dac channel w) < 4096.
Proof.
  intros Hb. run_driver.
  match goal with |- context [write_buffer ?b ?d ?n] =>
    pose proof (write_buffer_bytes b d n Hb) as Hrb;
    set (rb := write_buffer b d n) in * end.
  destruct (word_nibble_byte (nth 0 rb 0) (nth 1 rb 0) (nth_bytes rb 1 Hrb)) as [Hw Hr].
  rewrite u16_small by lia. split; [exact Hw | exact Hr].
Qed.

Lemma GetVref_range (w : World D) (dac : ptr) (channel : Z) :
  0 <= fst (MCP47FEB_GetVref dac channel w) <= 3.
Proof.
  run_driver. destruct (Z.eqb channel 0); rewrite ?pair_lo, ?pair_hi;
    match goal with |- context [field ?b ?lo 2] =>
      pose proof (field_range b lo 2 ltac:(lia)) as Hf end;
    change (2 ^ 2) with 4 in Hf; lia.
Qed.

Lemma GetPowerDown_range (w : World D) (dac : ptr) (channel : Z) :
  0 <= fst (MCP47FEB_GetPowerDown dac channel w) <= 3.
Proof.
  run_driver. destruct (Z.eqb channel 0); rewrite ?pair_lo, ?pair_hi;
    match goal with |- context [field ?b ?lo 2] =>
      pose proof (field_range b lo 2 ltac:(lia)) as Hf end;
    change (2 ^ 2) with 4 in Hf; lia.
Qed.

Lemma GetGain_range (w : World D) (dac : ptr) (channel : Z) :
  0 <= fst (MCP47FEB_GetGain dac channel w) <= 1.
Proof.
  run_driver. destruct (Z.eqb channel 0); rewrite ?bit_lo, ?bit_hi;
    match goal with |- context [field ?b ?lo 1] =>
      pose proof (field_range b lo 1 ltac:(lia)) as Hf end;
    change (2 ^ 1) with 2 in Hf; lia.
Qed.

(** C5: for every register argument [r] and every 16-bit value [v] the
    fast-write framing issues one transmission of exactly three bytes:
    the command byte [(r << 3) | 0x00] as the [uint8_t] it is stored in,
    then [(v >> 8) & 0xFF], then [v & 0xFF]; for a register index (five
    bits, 0..0x1F) the command byte is [(r << 3) | 0x00] itself.  Nothing
    else of the world changes. *)
Theorem FastWrite_frame (w : World D) (dac : href) (r v : Z) :
  0 <= r < 256 -> 0 <= v < 65536 ->
  trace (snd (_FastWrite dac r v w)) =
    trace w ++ [Master_Transmit (hi2c (deref dac w)) (bus_address (deref dac w))
                  [u8 (Z.lor (Z.shiftl r 3) 0x00);
                   Z.land (Z.shiftr v 8) 0xFF; Z.land v 0xFF]
                  MCP47FEB_I2C_DELAY]
  /\ (r < 32 ->
      trace (snd (_FastWrite dac r v w)) =
        trace w ++ [Master_Transmit (hi2c (deref dac w)) (bus_address (deref dac w))
                      [Z.lor (Z.shiftl r 3) 0x00;
                       Z.land (Z.shiftr v 8) 0xFF; Z.land v 0xFF]
                      MCP47FEB_I2C_DELAY])
  /\ handles (snd (_FastWrite dac r v w)) = handles w
  /\ readBuffer (snd (_FastWrite dac r v w)) = readBuffer w
  /\ bus (snd (_FastWrite dac r v w)) =
     snd (HAL_I2C_Master_Transmit (hi2c (deref dac w)) (bus_address (deref dac w))
            [u8 (Z.lor (Z.shiftl r 3) 0x00);
             Z.land (Z.shiftr v 8) 0xFF; Z.land v 0xFF]
            MCP47FEB_I2C_DELAY (bus w)).
Proof.
  intros Hr Hv.
  split; [| split; [| split; [reflexivity | split; [reflexivity |]]]].
  - run_driver. unfold WRITE. now rewrite !(u8_small _ (land_FF_range _)).
  - intros Hr5. now rewrite (FastWrite_trace w dac r v (conj (proj1 Hr) Hr5)).
  - run_driver. unfold WRITE. now rewrite !(u8_small _ (land_FF_range _)).
Qed.

(** C4: for every register index of the working bank, the streamed read
    transmits the single command byte [0x06 | (index << 3)] and the
    mirror-bank read that byte with [0x80] set; each then asks for
    exactly two bytes, so that the buffer keeps its length and everything
    past its first two positions. *)
Theorem ReadAddr_frames (w : World D) (dac : href) (r : Z) (buffer : list Z) :
  In r working_registers ->
  trace (snd (_ReadAddr dac r buffer w)) =
    trace w ++ read_frame (deref dac w) (Z.lor 0x06 (Z.shiftl r 3))
  /\ trace (snd (_ReadEpAddr dac r buffer w)) =
    trace w ++ read_frame (deref dac w) (Z.lor (Z.lor 0x06 (Z.shiftl r 3)) 0x80)
  /\ map (fun i => Z.lor 0x06 (Z.shiftl i 3)) working_registers =
       [0x06; 0x0E; 0x46; 0x4E; 0x56; 0x5E]
  /\ (skipn 2 (fst (_ReadAddr dac r buffer w)) = skipn 2 buffer
      /\ length (fst (_ReadAddr dac r buffer w)) = length buffer)
  /\ (skipn 2 (fst (_ReadEpAddr dac r buffer w)) = skipn 2 buffer
      /\ length (fst (_ReadEpAddr dac r buffer w)) = length buffer)
  /\ handles (snd (_ReadAddr dac r buffer w)) = handles w
  /\ handles (snd (_ReadEpAddr dac r buffer w)) = handles w.
Proof.
  intros Hr.
  assert (Hcases : r = 0x00 \/ r = 0x01 \/ r = 0x08 \/ r = 0x09 \/ r = 0x0A \/ r = 0x0B).
  { unfold working_registers, DAC0_REG, DAC1_REG, VREF_REG, PD_REG, GAIN_REG, WL_REG in Hr.
    simpl in Hr. intuition auto. }
  unfold read_frame. run_driver.
  rewrite !write_buffer_skipn, !write_buffer_length.
  destruct dac as [p | h]; cbn [deref handles];
    rewrite <- !app_assoc;
    destruct Hcases as [-> | [-> | [-> | [-> | [-> | ->]]]]];
    repeat split.
Qed.

(** C6: the addressed write issues one transmission of three bytes whose
    command byte is [REG | 0x00], unshifted; for the gain register the
    data byte sits at payload position 1 and position 2 is zero, for
    every other register it sits at position 2 and position 1 is
    zero. *)
Theorem WriteAddr_frame (w : World D) (dac : href) (REG d : Z) :
  0 <= REG < 256 -> 0 <= d < 256 ->
  trace (snd (_WriteAddr dac REG d w)) =
    trace w ++ write_frame (deref dac w) (Z.lor REG 0x00)
                 (if Z.eqb REG 0x0A then d else 0)
                 (if Z.eqb REG 0x0A then 0 else d)
  /\ (REG = GAIN_REG ->
      trace (snd (_WriteAddr dac REG d w)) =
        trace w ++ write_frame (deref dac w) 0x0A d 0)
  /\ (REG <> GAIN_REG ->
      trace (snd (_WriteAddr dac REG d w)) =
        trace w ++ write_frame (deref dac w) REG 0 d)
  /\ handles (snd (_WriteAddr dac REG d w)) = handles w.
Proof.
  intros HR Hd. unfold _WriteAddr, WRITE, GAIN_REG, write_frame.
  rewrite Z.lor_0_r, (u8_small REG HR).
  destruct (Z.eqb_spec REG 0x0A) as [-> | Hne];
    unfold transmit; cbn [snd trace handles firstn];
    repeat split; intros; (reflexivity || contradiction || discriminate).
Qed.

(** C7: the two output codes are masked to 12 bits and sent as two fast
    writes, channel 0 to register DAC0 and then channel 1 to register
    DAC1; for the arguments 4096 and 5000 the values sent are 0 and
    0x388. *)
Theorem AnalogWrite_frames (w : World D) (dac : ptr) (val0 val1 : Z) :
  0 <= val0 < 65536 -> 0 <= val1 < 65536 ->
  trace (snd (MCP47FEB_AnalogWrite dac val0 val1 w)) =
    trace w ++ fast_write_frame (handles w dac) DAC0_REG (Z.land val0 0xFFF)
            ++ fast_write_frame (handles w dac) DAC1_REG (Z.land val1 0xFFF)
  /\ writes_of (fast_write_frame (handles w dac) DAC0_REG (Z.land val0 0xFFF)
                ++ fast_write_frame (handles w dac) DAC1_REG (Z.land val1 0xFFF)) =
     [[0x00; Z.land (Z.shiftr (Z.land val0 0xFFF) 8) 0xFF; Z.land (Z.land val0 0xFFF) 0xFF];
      [0x08; Z.land (Z.shiftr (Z.land val1 0xFFF) 8) 0xFF; Z.land (Z.land val1 0xFFF) 0xFF]]
  /\ (val0 = 4096 -> val1 = 5000 ->
      Z.land val0 0xFFF = 0 /\ Z.land val1 0xFFF = Z.land 0x1388 0xFFF
      /\ writes_of (skipn (length (trace w))
                      (trace (snd (MCP47FEB_AnalogWrite dac val0 val1 w)))) =
         [[0x00; 0x00; 0x00]; [0x08; 0x03; 0x88]]).
Proof.
  intros H0 H1.
  assert (Hm : forall x, 0 <= Z.land x 0xFFF < 65536).
  { intros x. pose proof (land_ones_range x 12 ltac:(lia)) as Hx.
    change (Z.ones 12) with 0xFFF in Hx. change (2 ^ 12) with 4096 in Hx. lia. }
  assert (Ht : trace (snd (MCP47FEB_AnalogWrite dac val0 val1 w)) =
    trace w ++ fast_write_frame (handles w dac) DAC0_REG (Z.land val0 0xFFF)
            ++ fast_write_frame (handles w dac) DAC1_REG (Z.land val1 0xFFF)).
  { unfold MCP47FEB_AnalogWrite, bind, _FastWrite, transmit, fast_write_frame,
      write_frame, WRITE, DAC0_REG, DAC1_REG.
    cbn [snd fst trace handles firstn deref].
    rewrite !(u16_small _ (Hm _)), !(u8_small _ (land_FF_range _)).
    rewrite <- app_assoc. reflexivity. }
  split; [exact Ht |]. split; [reflexivity |].
  intros -> ->. split; [reflexivity |]. split; [reflexivity |].
  rewrite Ht, skipn_app, skipn_all, Nat.sub_diag. reflexivity.
Qed.

(** *** Effects of the helpers on the memory of handles *)

Lemma transmit_handles (w : World D) dac pData Size :
  handles (snd (transmit dac pData Size w)) = handles w.
Proof. reflexivity. Qed.

Lemma WriteAddr_handles (w : World D) dac REG d :
  handles (snd (_WriteAddr dac REG d w)) = handles w.
Proof. unfold _WriteAddr. destruct (Z.eqb REG GAIN_REG); reflexivity. Qed.

Lemma run_call_handles (w : World D) (dac : ptr) (c : api_call) :
  handles (run_call dac c w) = handles w.
Proof.
  destruct c; cbn [run_call]; try reflexivity;
    unfold MCP47FEB_UnlockSALCK, MCP47FEB_LockSALCK, MCP47FEB_SetPowerDown,
      MCP47FEB_SetGain, MCP47FEB_SetVref;
    apply WriteAddr_handles.
Qed.

Lemma run_calls_handles (cs : list (ptr * api_call)) (w : World D) :
  handles (run_calls cs w) = handles w.
Proof.
  revert w. induction cs as [| [dac c] cs IH]; intros w; cbn [run_calls].
  - reflexivity.
  - rewrite IH. apply run_call_handles.
Qed.

(** C1, evaluated on the code: for channel 0 [MCP47FEB_GetValue] sends
    the read command [0x06] of register DAC0, but for channel 1 it sends
    [0x46], the read command of register VREF (index [0x08]), and not
    the command [0x0E] of register DAC1: the channel is shifted by three
    bits before [_ReadAddr] shifts it again.  The call leaves the world
    exactly as [MCP47FEB_GetVref] does. *)
Theorem GetValue_channel1_reads_VREF (w : World D) (dac : ptr) :
  trace (snd (MCP47FEB_GetValue dac 0 w)) =
    trace w ++ read_frame (handles w dac) 0x06
  /\ trace (snd (MCP47FEB_GetValue dac 1 w)) =
    trace w ++ read_frame (handles w dac) 0x46
  /\ Z.lor 0x06 (Z.shiftl DAC1_REG 3) = 0x0E
  /\ Z.lor 0x06 (Z.shiftl VREF_REG 3) = 0x46
  /\ 0x46 <> 0x0E
  /\ snd (MCP47FEB_GetValue dac 1 w) = snd (MCP47FEB_GetVref dac 1 w).
Proof.
  unfold read_frame. run_driver.
  rewrite <- !app_assoc.
  repeat split; discriminate.
Qed.

(** C3: locking to address [addr] issues the very transmission that
    unlocking does on a temporary handle holding [addr] and the
    transport of the caller's handle: one addressed write to bus address
    [addr << 1] with command byte [0xD0 | 0x02 = 0xD2], which is the
    unlock and not the lock constant, and two zero bytes; the memory of
    handles is as before. *)
Theorem LockSALCK_is_unlock (w : World D) (dac tmp : ptr) (addr : Z) :
  let BIAS_DAC := mkDAC addr (hi2c (handles w dac)) in
  let w_tmp := mkWorld (poke (handles w) tmp BIAS_DAC)
                       (readBuffer w) (bus w) (trace w) in
  trace (snd (MCP47FEB_LockSALCK dac addr w)) =
    trace w ++ write_frame BIAS_DAC 0xD2 0 0
  /\ trace (snd (MCP47FEB_UnlockSALCK tmp w_tmp)) =
    trace w ++ write_frame BIAS_DAC 0xD2 0 0
  /\ bus (snd (MCP47FEB_LockSALCK dac addr w)) =
     bus (snd (MCP47FEB_UnlockSALCK tmp w_tmp))
  /\ readBuffer (snd (MCP47FEB_LockSALCK dac addr w)) =
     readBuffer (snd (MCP47FEB_UnlockSALCK tmp w_tmp))
  /\ Z.lor SALCK UNLOCK_SALCK = 0xD2
  /\ Z.lor SALCK LOCK_SALCK <> 0xD2
  /\ handles (snd (MCP47FEB_LockSALCK dac addr w)) = handles w.
Proof.
  intros BIAS_DAC w_tmp.
  assert (Htmp : handles w_tmp tmp = BIAS_DAC).
  { unfold w_tmp, poke. cbn [handles]. now rewrite Nat.eqb_refl. }
  unfold MCP47FEB_LockSALCK, MCP47FEB_UnlockSALCK, _WriteAddr, transmit, write_frame.
  change (Z.eqb (Z.lor SALCK UNLOCK_SALCK) GAIN_REG) with false.
  change (u8 (Z.lor (Z.lor SALCK UNLOCK_SALCK) WRITE)) with 0xD2.
  cbn [snd fst trace handles readBuffer bus firstn deref].
  rewrite Htmp. fold BIAS_DAC.
  repeat split; discriminate.
Qed.

(** C9: initialisation stores the address and the transport in the
    handle, touches nothing else (no HAL call, no other handle, not the
    receive buffer) and returns; after it no sequence of driver calls,
    on this or on any other handle, changes any handle in memory, and
    [MCP47FEB_LockSALCK] in particular addresses its one transmission
    through a handle value of its own holding the new address. *)
Theorem Init_binds_handle (w : World D) (dac : ptr) (a : Z)
        (i2c : I2C_HandleTypeDef) (cs : list (ptr * api_call)) (addr : Z) :
  let w0 := snd (MCP47FEB_Init dac a i2c w) in
  MCP47FEB_Init dac a i2c w = (tt, w0)
  /\ handles w0 dac = mkDAC a i2c
  /\ (forall q, q <> dac -> handles w0 q = handles w q)
  /\ trace w0 = trace w /\ bus w0 = bus w /\ readBuffer w0 = readBuffer w
  /\ handles (run_calls cs w0) = handles w0
  /\ devAddr (handles (run_calls cs w0) dac) = a
  /\ hi2c (handles (run_calls cs w0) dac) = i2c
  /\ handles (snd (MCP47FEB_LockSALCK dac addr w0)) = handles w0
  /\ trace (snd (MCP47FEB_LockSALCK dac addr w0)) =
     trace w0 ++ write_frame (mkDAC addr i2c) 0xD2 0 0.
Proof.
  intros w0.
  assert (Hdac : handles w0 dac = mkDAC a i2c).
  { unfold w0, MCP47FEB_Init, bind, set_devAddr, set_hi2c, poke.
    cbn [snd fst handles]. now rewrite !Nat.eqb_refl. }
  assert (Hother : forall q, q <> dac -> handles w0 q = handles w q).
  { intros q Hq. unfold w0, MCP47FEB_Init, bind, set_devAddr, set_hi2c, poke.
    cbn [snd fst handles]. apply Nat.eqb_neq in Hq. now rewrite Hq. }
  split; [reflexivity |]. split; [exact Hdac |]. split; [exact Hother |].
  split; [reflexivity |]. split; [reflexivity |]. split; [reflexivity |].
  split; [apply run_calls_handles |].
  rewrite run_calls_handles, Hdac. split; [reflexivity |]. split; [reflexivity |].
  split; [apply (run_call_handles w0 dac (Call_LockSALCK addr)) |].
  unfold MCP47FEB_LockSALCK, _WriteAddr, transmit, write_frame.
  change (Z.eqb (Z.lor SALCK UNLOCK_SALCK) GAIN_REG) with false.
  change (u8 (Z.lor (Z.lor SALCK UNLOCK_SALCK) WRITE)) with 0xD2.
  cbn [snd fst trace firstn deref]. rewrite Hdac. reflexivity.
Qed.

(** C10: in the six per-channel get accessors only channel 0 selects
    the channel-0 field of the byte read; every other channel argument
    (any non-zero [int] for the power-down and gain accessors, any
    non-zero [uint8_t] for the voltage-reference ones) selects the
    channel-1 field, exactly as channel 1 does, and the result is at
    most 3 for the two-bit fields and at most 1 for gain. *)
Theorem accessors_select_channel_1 (w : World D) (dac : ptr) (channel channel8 : Z) :
  channel <> 0 -> 0 < channel8 < 256 ->
  selects_channel_1 MCP47FEB_GetPowerDown
    (nth 1 (fst (_ReadAddr (InMem dac) PD_REG (readBuffer w) w)) 0) 2 w dac channel
  /\ selects_channel_1 MCP47FEB_GetPowerDownEp
    (nth 1 (fst (_ReadEpAddr (InMem dac) PD_REG (readBuffer w) w)) 0) 2 w dac channel
  /\ selects_channel_1 MCP47FEB_GetGain
    (nth 0 (fst (_ReadAddr (InMem dac) GAIN_REG [0; 0; 0; 0; 0] w)) 0) 1 w dac channel
  /\ selects_channel_1 MCP47FEB_GetGainEp
    (nth 0 (fst (_ReadEpAddr (InMem dac) GAIN_REG (readBuffer w) w)) 0) 1 w dac channel
  /\ selects_channel_1 MCP47FEB_GetVref
    (nth 1 (fst (_ReadAddr (InMem dac) VREF_REG (readBuffer w) w)) 0) 2 w dac channel8
  /\ selects_channel_1 MCP47FEB_GetVrefEp
    (nth 1 (fst (_ReadEpAddr (InMem dac) VREF_REG (readBuffer w) w)) 0) 2 w dac channel8.
Proof.
  intros Hc Hc8.
  assert (Ec : Z.eqb channel 0 = false) by (apply Z.eqb_neq; exact Hc).
  assert (Ec8 : Z.eqb channel8 0 = false) by (apply Z.eqb_neq; lia).
  assert (R2 : forall b lo, 0 <= field b lo 2 <= 2 ^ 2 - 1).
  { intros b lo. pose proof (field_range b lo 2 ltac:(lia)). lia. }
  assert (R1 : forall b lo, 0 <= field b lo 1 <= 2 ^ 1 - 1).
  { intros b lo. pose proof (field_range b lo 1 ltac:(lia)). lia. }
  unfold selects_channel_1.
  repeat match goal with |- _ /\ _ => split end;
    run_driver;
    rewrite ?Ec, ?Ec8; change (Z.eqb 0 0) with true; change (Z.eqb 1 0) with false;
    cbv iota;
    rewrite ?pair_lo, ?pair_hi, ?bit_lo, ?bit_hi;
    try reflexivity;
    first [ apply (proj1 (R2 _ _)) | apply (proj2 (R2 _ _))
          | apply (proj1 (R1 _ _)) | apply (proj2 (R1 _ _)) ].
Qed.

(** C2: [MCP47FEB_EEPROMWrite] performs, in this order, the reads of its
    get accessors and exactly five fast writes, to the registers DAC0_EP
    (0x10), DAC1_EP (0x11), VREF_EP (0x18), GAIN_EP (0x1A) and PD_EP
    (0x19); each write carries what the accessors called just before it
    returned: the two output values, [vref0 | vref1 << 2],
    [(gain0 | gain1 << 1) << 8] and [pd0 | pd1 << 2].  The gain bits thus
    travel in the first data byte, the others in the second. *)
Theorem EEPROMWrite_frames (w : World D) (dac : ptr) :
  let h := handles w dac in
  let r0 := MCP47FEB_GetValue dac 0 w in
  let w0 := snd (_FastWrite (InMem dac) DAC0_EP_REG (fst r0) (snd r0)) in
  let r1 := MCP47FEB_GetValue dac 1 w0 in
  let w1 := snd (_FastWrite (InMem dac) DAC1_EP_REG (fst r1) (snd r1)) in
  let rv0 := MCP47FEB_GetVref dac 0 w1 in
  let rv1 := MCP47FEB_GetVref dac 1 (snd rv0) in
  let vref := Z.lor (fst rv0) (Z.shiftl (fst rv1) 2) in
  let w2 := snd (_FastWrite (InMem dac) VREF_EP_REG vref (snd rv1)) in
  let rg0 := MCP47FEB_GetGain dac 0 w2 in
  let rg1 := MCP47FEB_GetGain dac 1 (snd rg0) in
  let gain := Z.lor (fst rg0) (Z.shiftl (fst rg1) 1) in
  let w3 := snd (_FastWrite (InMem dac) GAIN_EP_REG (Z.shiftl gain 8) (snd rg1)) in
  let rp0 := MCP47FEB_GetPowerDown dac 0 w3 in
  let rp1 := MCP47FEB_GetPowerDown dac 1 (snd rp0) in
  let pd := Z.lor (fst rp0) (Z.shiftl (fst rp1) 2) in
  let w4 := snd (_FastWrite (InMem dac) PD_EP_REG pd (snd rp1)) in
  MCP47FEB_EEPROMWrite dac w = (tt, w4)
  /\ trace w4 =
     trace w
       ++ read_frame h 0x06 ++ fast_write_frame h 0x10 (fst r0)
       ++ read_frame h 0x46 ++ fast_write_frame h 0x11 (fst r1)
       ++ read_frame h 0x46 ++ read_frame h 0x46
       ++ fast_write_frame h 0x18 vref
       ++ read_frame h 0x56 ++ read_frame h 0x56
       ++ fast_write_frame h 0x1A (Z.shiftl gain 8)
       ++ read_frame h 0x4E ++ read_frame h 0x4E
       ++ fast_write_frame h 0x19 pd
  /\ writes_of (skipn (length (trace w)) (trace w4)) =
     [[0x80; Z.land (Z.shiftr (fst r0) 8) 0xFF; Z.land (fst r0) 0xFF];
      [0x88; Z.land (Z.shiftr (fst r1) 8) 0xFF; Z.land (fst r1) 0xFF];
      [0xC0; 0; vref];
      [0xD0; gain; 0];
      [0xC8; 0; pd]]
  /\ handles w4 = handles w.
Proof.
  intros h r0 w0 r1 w1 rv0 rv1 vref w2 rg0 rg1 gain w3 rp0 rp1 pd w4.
  destruct (pack_pairs _ _ (GetVref_range w1 dac 0) (GetVref_range (snd rv0) dac 1))
    as (Hv & Hv1 & Hv2).
  destruct (pack_gain _ _ (GetGain_range w2 dac 0) (GetGain_range (snd rg0) dac 1))
    as (Hg & Hg1 & Hg2).
  destruct (pack_pairs _ _ (GetPowerDown_range w3 dac 0)
              (GetPowerDown_range (snd rp0) dac 1)) as (Hp & Hp1 & Hp2).
  fold rv0 rv1 vref in Hv, Hv1, Hv2. fold rg0 rg1 gain in Hg, Hg1, Hg2.
  fold rp0 rp1 pd in Hp, Hp1, Hp2.
  assert (Hrun : MCP47FEB_EEPROMWrite dac w = (tt, w4)).
  { apply u16_small in Hg.
    assert (Ev : u16 vref = vref) by (apply u16_small; lia).
    assert (Ep : u16 pd = pd) by (apply u16_small; lia).
    unfold MCP47FEB_EEPROMWrite, bind.
    fold r0 w0 r1 w1 rv0 rv1 vref. rewrite Ev.
    fold w2 rg0 rg1 gain. rewrite Hg.
    fold w3 rp0 rp1 pd. rewrite Ep. reflexivity. }
  assert (Htrace : trace w4 =
     trace w
       ++ read_frame h 0x06 ++ fast_write_frame h 0x10 (fst r0)
       ++ read_frame h 0x46 ++ fast_write_frame h 0x11 (fst r1)
       ++ read_frame h 0x46 ++ read_frame h 0x46
       ++ fast_write_frame h 0x18 vref
       ++ read_frame h 0x56 ++ read_frame h 0x56
       ++ fast_write_frame h 0x1A (Z.shiftl gain 8)
       ++ read_frame h 0x4E ++ read_frame h 0x4E
       ++ fast_write_frame h 0x19 pd).
  { unfold w4. rewrite FastWrite_trace by (unfold PD_EP_REG; lia).
    unfold rp1. rewrite GetPowerDown_trace.
    unfold rp0. rewrite GetPowerDown_trace.
    unfold w3. rewrite FastWrite_trace by (unfold GAIN_EP_REG; lia).
    unfold rg1. rewrite GetGain_trace.
    unfold rg0. rewrite GetGain_trace.
    unfold w2. rewrite FastWrite_trace by (unfold VREF_EP_REG; lia).
    unfold rv1. rewrite GetVref_trace.
    unfold rv0. rewrite GetVref_trace.
    unfold w1. rewrite FastWrite_trace by (unfold DAC1_EP_REG; lia).
    unfold r1. rewrite GetValue_trace.
    unfold w0. rewrite FastWrite_trace by (unfold DAC0_EP_REG; lia).
    unfold r0. rewrite GetValue_trace.
    rewrite <- !app_assoc. reflexivity. }
  split; [exact Hrun |]. split; [exact Htrace |]. split; [| reflexivity].
  rewrite Htrace, skipn_app, skipn_all, Nat.sub_diag.
  unfold read_frame, fast_write_frame, write_frame.
  cbn [skipn app writes_of].
  rewrite Hv1, Hv2, Hg1, Hg2, Hp1, Hp2. reflexivity.
Qed.

(** The order in which the compiler evaluates the operands of [|] does not
    show on the bus: evaluated right to left, the function issues the same
    frames, the gain and power-down writes carrying the results of the
    accessor calls in the order they were then made. *)
Lemma EEPROMWrite_rtl_frames (w : World D) (dac : ptr) :
  let h := handles w dac in
  let r0 := MCP47FEB_GetValue dac 0 w in
  let w0 := snd (_FastWrite (InMem dac) DAC0_EP_REG (fst r0) (snd r0)) in
  let r1 := MCP47FEB_GetValue dac 1 w0 in
  let w1 := snd (_FastWrite (InMem dac) DAC1_EP_REG (fst r1) (snd r1)) in
  let rv0 := MCP47FEB_GetVref dac 0 w1 in
  let rv1 := MCP47FEB_GetVref dac 1 (snd rv0) in
  let vref := Z.lor (fst rv0) (Z.shiftl (fst rv1) 2) in
  let w2 := snd (_FastWrite (InMem dac) VREF_EP_REG vref (snd rv1)) in
  let rg1 := MCP47FEB_GetGain dac 1 w2 in
  let rg0 := MCP47FEB_GetGain dac 0 (snd rg1) in
  let gain := Z.lor (fst rg0) (Z.shiftl (fst rg1) 1) in
  let w3 := snd (_FastWrite (InMem dac) GAIN_EP_REG (Z.shiftl gain 8) (snd rg0)) in
  let rp1 := MCP47FEB_GetPowerDown dac 1 w3 in
  let rp0 := MCP47FEB_GetPowerDown dac 0 (snd rp1) in
  let pd := Z.lor (fst rp0) (Z.shiftl (fst rp1) 2) in
  let w4 := snd (_FastWrite (InMem dac) PD_EP_REG pd (snd rp0)) in
  MCP47FEB_EEPROMWrite_rtl dac w = (tt, w4)
  /\ trace w4 =
     trace w
       ++ read_frame h 0x06 ++ fast_write_frame h 0x10 (fst r0)
       ++ read_frame h 0x46 ++ fast_write_frame h 0x11 (fst r1)
       ++ read_frame h 0x46 ++ read_frame h 0x46
       ++ fast_write_frame h 0x18 vref
       ++ read_frame h 0x56 ++ read_frame h 0x56
       ++ fast_write_frame h 0x1A (Z.shiftl gain 8)
       ++ read_frame h 0x4E ++ read_frame h 0x4E
       ++ fast_write_frame h 0x19 pd.
Proof.
  intros h r0 w0 r1 w1 rv0 rv1 vref w2 rg1 rg0 gain w3 rp1 rp0 pd w4.
  destruct (pack_pairs _ _ (GetVref_range w1 dac 0) (GetVref_range (snd rv0) dac 1))
    as (Hv & _).
  destruct (pack_gain _ _ (GetGain_range (snd rg1) dac 0) (GetGain_range w2 dac 1))
    as (Hg & _).
  destruct (pack_pairs _ _ (GetPowerDown_range (snd rp1) dac 0)
              (GetPowerDown_range w3 dac 1)) as (Hp & _).
  fold rv0 rv1 vref in Hv. fold rg1 rg0 gain in Hg. fold rp1 rp0 pd in Hp.
  split.
  - apply u16_small in Hg.
    assert (Ev : u16 vref = vref) by (apply u16_small; lia).
    assert (Ep : u16 pd = pd) by (apply u16_small; lia).
    unfold MCP47FEB_EEPROMWrite_rtl, bind.
    fold r0 w0 r1 w1 rv0 rv1 vref. rewrite Ev.
    fold w2 rg1 rg0 gain. rewrite Hg.
    fold w3 rp1 rp0 pd. rewrite Ep. reflexivity.
  - unfold w4. rewrite FastWrite_trace by (unfold PD_EP_REG; lia).
    unfold rp0. rewrite GetPowerDown_trace.
    unfold rp1. rewrite GetPowerDown_trace.
    unfold w3. rewrite FastWrite_trace by (unfold GAIN_EP_REG; lia).
    unfold rg0. rewrite GetGain_trace.
    unfold rg1. rewrite GetGain_trace.
    unfold w2. rewrite FastWrite_trace by (unfold VREF_EP_REG; lia).
    unfold rv1. rewrite GetVref_trace.
    unfold rv0. rewrite GetVref_trace.
    unfold w1. rewrite FastWrite_trace by (unfold DAC1_EP_REG; lia).
    unfold r1. rewrite GetValue_trace.
    unfold w0. rewrite FastWrite_trace by (unfold DAC0_EP_REG; lia).
    unfold r0. rewrite GetValue_trace.
    rewrite <- !app_assoc. reflexivity.
Qed.

End Properties.

Section Simulated.

Variable delay : Z.

Local Abbreviation SetPowerDown := (@MCP47FEB_SetPowerDown _ (SimPlatform delay)).
Local Abbreviation GetPowerDown := (@MCP47FEB_GetPowerDown _ (SimPlatform delay)).

Lemma sim_SetPowerDown (w : World SimDevice) (dac : ptr) (v0 v1 : Z) :
  sim_address (bus w) = bus_address (handles w dac) ->
  snd (SetPowerDown dac v0 v1 w) =
    mkWorld (handles w) (readBuffer w)
      (mkSim (sim_address (bus w))
         (fun r => if Z.eqb r PD_REG
                   then (0, u8 (Z.lor v0 (Z.shiftl v1 2)))
                   else sim_regs (bus w) r)
         (sim_selected (bus w)))
      (trace w ++ write_frame (P := SimPlatform delay) (handles w dac) PD_REG 0
                    (u8 (Z.lor v0 (Z.shiftl v1 2)))).
Proof.
  intros Hb. unfold write_frame. run_driver.
  change (Z.eqb PD_REG GAIN_REG) with false. cbv iota. run_driver.
  cbn [HAL_I2C_Master_Transmit SimPlatform]. unfold sim_transmit.
  rewrite <- Hb, Z.eqb_refl. reflexivity.
Qed.

Lemma sim_GetPowerDown (w : World SimDevice) (dac : ptr) (channel b0 b1 : Z)
      (rest : list Z) :
  sim_address (bus w) = bus_address (handles w dac) ->
  readBuffer w = b0 :: b1 :: rest ->
  GetPowerDown dac channel w =
    (if Z.eqb channel 0
     then field (u8 (snd (sim_regs (bus w) PD_REG))) 0 2
     else field (u8 (snd (sim_regs (bus w) PD_REG))) 2 2,
     mkWorld (handles w)
       (u8 (fst (sim_regs (bus w) PD_REG)) :: u8 (snd (sim_regs (bus w) PD_REG)) :: rest)
       (mkSim (sim_address (bus w)) (sim_regs (bus w)) PD_REG)
       (trace w ++ read_frame (P := SimPlatform delay) (handles w dac) 0x4E)).
Proof.
  intros Hb Hrb. unfold read_frame. run_driver.
  cbn [HAL_I2C_Master_Transmit HAL_I2C_Master_Receive SimPlatform].
  unfold sim_transmit, sim_receive.
  rewrite <- !Hb, !Z.eqb_refl. cbn [sim_address sim_regs sim_selected fst snd].
  rewrite ?Z.eqb_refl.
  cbn [sim_address sim_regs sim_selected fst snd].
  change (Z.land (Z.shiftr (u8 (Z.lor READ (Z.shiftl PD_REG 3))) 3) 31) with PD_REG.
  rewrite Hrb. change (Z.to_nat (Z.of_nat 2)) with 2%nat.
  cbn [firstn write_buffer nth].
  rewrite pair_lo, pair_hi, <- app_assoc.
  reflexivity.
Qed.

Lemma unpack_pairs (v0 v1 : Z) :
  0 <= v0 <= 3 -> 0 <= v1 <= 3 ->
  field (u8 (u8 (Z.lor v0 (Z.shiftl v1 2)))) 0 2 = v0
  /\ field (u8 (u8 (Z.lor v0 (Z.shiftl v1 2)))) 2 2 = v1.
Proof.
  intros H0 H1.
  assert (E0 : v0 = 0 \/ v0 = 1 \/ v0 = 2 \/ v0 = 3) by lia.
  assert (E1 : v1 = 0 \/ v1 = 1 \/ v1 = 2 \/ v1 = 3) by lia.
  destruct E0 as [-> | [-> | [-> | ->]]];
    destruct E1 as [-> | [-> | [-> | ->]]]; split; reflexivity.
Qed.

Lemma sim_round_trip (w : World SimDevice) (dac : ptr) (v0 v1 : Z) :
  sim_address (bus w) = bus_address (handles w dac) ->
  length (readBuffer w) = 5%nat ->
  0 <= v0 <= 3 -> 0 <= v1 <= 3 ->
  fst (GetPowerDown dac 0 (snd (SetPowerDown dac v0 v1 w))) = v0
  /\ fst (GetPowerDown dac 1 (snd (SetPowerDown dac v0 v1 w))) = v1
  /\ fst (GetPowerDown dac 1
            (snd (GetPowerDown dac 0 (snd (SetPowerDown dac v0 v1 w))))) = v1.
Proof.
  intros Hb Hlen H0 H1.
  destruct (readBuffer w) as [| b0 [| b1 rest]] eqn:Hrb; try discriminate Hlen.
  destruct (unpack_pairs v0 v1 H0 H1) as [U0 U1].
  rewrite (sim_SetPowerDown w dac v0 v1 Hb).
  set (w1 := mkWorld _ _ _ _).
  assert (Hb1 : sim_address (bus w1) = bus_address (handles w1 dac)) by exact Hb.
  assert (Hrb1 : readBuffer w1 = b0 :: b1 :: rest) by exact Hrb.
  assert (Hreg : sim_regs (bus w1) PD_REG = (0, u8 (Z.lor v0 (Z.shiftl v1 2))))
    by reflexivity.
  rewrite !(sim_GetPowerDown w1 dac _ b0 b1 rest Hb1 Hrb1).
  cbn [fst snd]. rewrite Hreg. cbn [fst snd].
  change (Z.eqb 0 0) with true. change (Z.eqb 1 0) with false. cbv iota.
  split; [exact U0 |]. split; [exact U1 |].
  set (w2 := mkWorld _ _ _ _).
  assert (Hb2 : sim_address (bus w2) = bus_address (handles w2 dac)) by exact Hb.
  assert (Hreg2 : sim_regs (bus w2) PD_REG = (0, u8 (Z.lor v0 (Z.shiftl v1 2))))
    by reflexivity.
  rewrite (sim_GetPowerDown w2 dac 1 _ _ rest Hb2 eq_refl).
  cbn [fst snd]. rewrite Hreg2. cbn [fst snd]. exact U1.
Qed.

(** C8: on a bus carrying the simulated device at the handle's address,
    setting the power-down modes [v0] and [v1] (each 0..3) and reading
    them back yields [v0] for channel 0 and [v1] for channel 1, whether
    the two reads follow the write separately or one after the other;
    in particular after [MCP47FEB_SetPowerDown(dac, 0, 1)] channel 0
    reads 0 and channel 1 reads 1. *)
Theorem PowerDown_round_trip (w : World SimDevice) (dac : ptr) (v0 v1 : Z) :
  sim_address (bus w) = bus_address (handles w dac) ->
  length (readBuffer w) = 5%nat ->
  0 <= v0 <= 3 -> 0 <= v1 <= 3 ->
  (fst (GetPowerDown dac 0 (snd (SetPowerDown dac v0 v1 w))) = v0
   /\ fst (GetPowerDown dac 1 (snd (SetPowerDown dac v0 v1 w))) = v1
   /\ fst (GetPowerDown dac 1
             (snd (GetPowerDown dac 0 (snd (SetPowerDown dac v0 v1 w))))) = v1)
  /\ (fst (GetPowerDown dac 0 (snd (SetPowerDown dac 0 1 w))) = 0
      /\ fst (GetPowerDown dac 1 (snd (SetPowerDown dac 0 1 w))) = 1
      /\ fst (GetPowerDown dac 1
                (snd (GetPowerDown dac 0 (snd (SetPowerDown dac 0 1 w))))) = 1).
Proof.
  intros Hb Hlen H0 H1. split.
  - exact (sim_round_trip w dac v0 v1 Hb Hlen H0 H1).
  - apply (sim_round_trip w dac 0 1 Hb Hlen); lia.
Qed.

End Simulated.

(** ** The properties at concrete inputs, on the simulated platform *)

Lemma FastWrite_frame_witness :
  0 <= GAIN_EP_REG < 256 /\ 0 <= 0x0300 < 65536
  /\ trace (snd (_FastWrite (P := SimPlatform 100) (InMem 0%nat) GAIN_EP_REG 0x0300 bench)) =
       [Master_Transmit 0%nat 0xC0 [0xD0; 0x03; 0x00] 100].
Proof.
  assert (Hr : 0 <= GAIN_EP_REG < 256) by (unfold GAIN_EP_REG; lia).
  assert (Hv : 0 <= 0x0300 < 65536) by lia.
  split; [exact Hr |]. split; [exact Hv |].
  exact (proj1 (FastWrite_frame (P := SimPlatform 100) bench (InMem 0%nat)
                  GAIN_EP_REG 0x0300 Hr Hv)).
Defined.

Lemma ReadAddr_frames_witness :
  In PD_REG working_registers
  /\ trace (snd (_ReadAddr (P := SimPlatform 100) (InMem 0%nat) PD_REG [0; 0; 0; 0; 0] bench)) =
       [Master_Transmit 0%nat 0xC0 [0x4E] 100; Master_Receive 0%nat 0xC0 2 100]
  /\ trace (snd (_ReadEpAddr (P := SimPlatform 100) (InMem 0%nat) PD_REG [0; 0; 0; 0; 0] bench)) =
       [Master_Transmit 0%nat 0xC0 [0xCE] 100; Master_Receive 0%nat 0xC0 2 100].
Proof.
  assert (Hr : In PD_REG working_registers) by (simpl; tauto).
  split; [exact Hr |].
  pose proof (ReadAddr_frames (P := SimPlatform 100) bench (InMem 0%nat) PD_REG
                [0; 0; 0; 0; 0] Hr) as (H1 & H2 & _).
  split; [exact H1 | exact H2].
Defined.

Lemma WriteAddr_frame_witness :
  0 <= GAIN_REG < 256 /\ 0 <= 0x03 < 256 /\ 0 <= PD_REG < 256
  /\ trace (snd (_WriteAddr (P := SimPlatform 100) (InMem 0%nat) GAIN_REG 0x03 bench)) =
       [Master_Transmit 0%nat 0xC0 [0x0A; 0x03; 0x00] 100]
  /\ trace (snd (_WriteAddr (P := SimPlatform 100) (InMem 0%nat) PD_REG 0x03 bench)) =
       [Master_Transmit 0%nat 0xC0 [0x09; 0x00; 0x03] 100].
Proof.
  assert (Hg : 0 <= GAIN_REG < 256) by (unfold GAIN_REG; lia).
  assert (Hp : 0 <= PD_REG < 256) by (unfold PD_REG; lia).
  assert (Hd : 0 <= 0x03 < 256) by lia.
  split; [exact Hg |]. split; [exact Hd |]. split; [exact Hp |]. split.
  - exact (proj1 (WriteAddr_frame (P := SimPlatform 100) bench (InMem 0%nat) GAIN_REG 0x03 Hg Hd)).
  - exact (proj1 (WriteAddr_frame (P := SimPlatform 100) bench (InMem 0%nat) PD_REG 0x03 Hp Hd)).
Defined.

Lemma AnalogWrite_frames_witness :
  0 <= 4096 < 65536 /\ 0 <= 5000 < 65536
  /\ trace (snd (MCP47FEB_AnalogWrite (P := SimPlatform 100) 0%nat 4096 5000 bench)) =
       [Master_Transmit 0%nat 0xC0 [0x00; 0x00; 0x00] 100;
        Master_Transmit 0%nat 0xC0 [0x08; 0x03; 0x88] 100].
Proof.
  assert (H0 : 0 <= 4096 < 65536) by lia.
  assert (H1 : 0 <= 5000 < 65536) by lia.
  split; [exact H0 |]. split; [exact H1 |].
  exact (proj1 (AnalogWrite_frames (P := SimPlatform 100) bench 0%nat 4096 5000 H0 H1)).
Defined.

Lemma accessors_select_channel_1_witness :
  -1 <> 0 /\ 0 < 2 < 256
  /\ MCP47FEB_GetPowerDown (P := SimPlatform 100) 0%nat (-1) bench =
     MCP47FEB_GetPowerDown (P := SimPlatform 100) 0%nat 1 bench
  /\ MCP47FEB_GetGain (P := SimPlatform 100) 0%nat (-1) bench =
     MCP47FEB_GetGain (P := SimPlatform 100) 0%nat 1 bench
  /\ MCP47FEB_GetVref (P := SimPlatform 100) 0%nat 2 bench =
     MCP47FEB_GetVref (P := SimPlatform 100) 0%nat 1 bench.
Proof.
  assert (Hc : -1 <> 0) by lia.
  assert (Hc8 : 0 < 2 < 256) by lia.
  split; [exact Hc |]. split; [exact Hc8 |].
  pose proof (accessors_select_channel_1 (P := SimPlatform 100) bench 0%nat (-1) 2 Hc Hc8)
    as (Hpd & _ & Hg & _ & Hv & _).
  split; [exact (proj1 (proj2 (proj2 Hpd))) |].
  split; [exact (proj1 (proj2 (proj2 Hg))) | exact (proj1 (proj2 (proj2 Hv)))].
Defined.

Lemma PowerDown_round_trip_witness :
  sim_address (bus bench) = bus_address (handles bench 0%nat)
  /\ length (readBuffer bench) = 5%nat
  /\ 0 <= 2 <= 3 /\ 0 <= 3 <= 3
  /\ fst (MCP47FEB_GetPowerDown (P := SimPlatform 100) 0%nat 0
            (snd (MCP47FEB_SetPowerDown (P := SimPlatform 100) 0%nat 2 3 bench))) = 2
  /\ fst (MCP47FEB_GetPowerDown (P := SimPlatform 100) 0%nat 1
            (snd (MCP47FEB_SetPowerDown (P := SimPlatform 100) 0%nat 2 3 bench))) = 3
  /\ fst (MCP47FEB_GetPowerDown (P := SimPlatform 100) 0%nat 0
            (snd (MCP47FEB_SetPowerDown (P := SimPlatform 100) 0%nat 0 1 bench))) = 0
  /\ fst (MCP47FEB_GetPowerDown (P := SimPlatform 100) 0%nat 1
            (snd (MCP47FEB_SetPowerDown (P := SimPlatform 100) 0%nat 0 1 bench))) = 1.
Proof.
  assert (Hb : sim_address (bus bench) = bus_address (handles bench 0%nat)) by reflexivity.
  assert (Hl : length (readBuffer bench) = 5%nat) by reflexivity.
  assert (H0 : 0 <= 2 <= 3) by lia.
  assert (H1 : 0 <= 3 <= 3) by lia.
  split; [exact Hb |]. split; [exact Hl |]. split; [exact H0 |]. split; [exact H1 |].
  pose proof (PowerDown_round_trip 100 bench 0%nat 2 3 Hb Hl H0 H1)
    as ((G0 & G1 & _) & (K0 & K1 & _)).
  split; [exact G0 |]. split; [exact G1 |]. split; [exact K0 | exact K1].
Defined.

(** ** Invariants of every run of the driver *)

Section Runs.

Context {D : Type} `{P : Platform D}.

Lemma evolves_refl (S : ptr -> Prop) (w : World D) : evolves S w w.
Proof.
  repeat split; auto. exists []. split; [now rewrite app_nil_r | constructor].
Qed.

Lemma evolves_trans (S : ptr -> Prop) (w1 w2 w3 : World D) :
  evolves S w1 w2 -> evolves S w2 w3 -> evolves S w1 w3.
Proof.
  intros (Hh1 & Hl1 & Hs1 & Hb1 & n1 & Ht1 & Hf1) (Hh2 & Hl2 & Hs2 & Hb2 & n2 & Ht2 & Hf2).
  repeat split.
  - congruence.
  - congruence.
  - congruence.
  - auto.
  - exists (n1 ++ n2). split.
    + rewrite Ht2, Ht1, app_assoc. reflexivity.
    + apply Forall_app. split; [exact Hf1 |]. rewrite Hh1 in Hf2. exact Hf2.
Qed.

Lemma evolves_weaken (S T : ptr -> Prop) (w w' : World D) :
  (forall p, S p -> T p) -> evolves S w w' -> evolves T w w'.
Proof.
  intros HST (Hh & Hl & Hs & Hb & n & Ht & Hf). repeat split; auto.
  exists n. split; [exact Ht |].
  eapply Forall_impl; [| exact Hf]. intros e (p & Hp & He). exists p. auto.
Qed.

Lemma polite_ret {A} (S : ptr -> Prop) (a : A) : polite S (ret a).
Proof. intros w. apply evolves_refl. Qed.

Lemma polite_bind {A B} (S : ptr -> Prop) (c : M A) (k : A -> M B) :
  polite S c -> (forall a, polite S (k a)) -> polite S (bind c k).
Proof.
  intros Hc Hk w. unfold bind.
  eapply evolves_trans; [apply Hc | apply Hk].
Qed.

Lemma polite_get_readBuffer (S : ptr -> Prop) : polite S get_readBuffer.
Proof. intros w. apply evolves_refl. Qed.

Lemma polite_on_readBuffer (S : ptr -> Prop) (f : list Z -> M (list Z)) :
  (forall buffer, polite S (f buffer)) -> fills f -> polite S (on_readBuffer f).
Proof.
  intros Hf Hfill w.
  destruct (Hf (readBuffer w) w) as (Hh & _ & _ & _ & Ht).
  destruct (Hfill (readBuffer w) w) as (Hl & Hs & Hb).
  unfold on_readBuffer. cbn [snd handles readBuffer trace].
  repeat split; assumption.
Qed.

(** One event appended to the trace, the rest of the world but the bus
    left alone. *)
Lemma evolves_event (S : ptr -> Prop) (w : World D) (d : D) (e : bus_event) (p : ptr) :
  S p -> expected_event (handles w p) e ->
  evolves S w (mkWorld (handles w) (readBuffer w) d (trace w ++ [e])).
Proof.
  intros Hp He. repeat split; auto.
  exists [e]. split; [reflexivity |]. constructor; [| constructor]. exists p. auto.
Qed.

Lemma polite_transmit (S : ptr -> Prop) (p : ptr) (pData : list Z) (Size : nat) :
  S p -> bytes (firstn Size pData) ->
  (length (firstn Size pData) = 1%nat \/ length (firstn Size pData) = 3%nat) ->
  polite S (transmit (InMem p) pData Size).
Proof.
  intros Hp Hb Hl w. unfold transmit. cbn [snd deref].
  apply evolves_event with (p := p); [exact Hp |].
  cbn [expected_event]. auto 6.
Qed.

Lemma polite_receive (S : ptr -> Prop) (p : ptr) (buffer : list Z) :
  S p -> polite S (receive (InMem p) buffer 2).
Proof.
  intros Hp w. unfold receive. cbn [snd deref].
  apply evolves_event with (p := p); [exact Hp |].
  cbn [expected_event]. auto.
Qed.

Lemma bytes_1 b : bytes [u8 b].
Proof. repeat constructor; apply u8_range. Qed.

Lemma bytes_3 b0 b1 b2 :
  0 <= b0 < 256 -> 0 <= b1 < 256 -> 0 <= b2 < 256 -> bytes [b0; b1; b2].
Proof. intros; repeat constructor; lia. Qed.

Lemma polite_ReadAddr (S : ptr -> Prop) (p : ptr) (REG : Z) (buffer : list Z) :
  S p -> polite S (_ReadAddr (InMem p) REG buffer).
Proof.
  intros Hp. unfold _ReadAddr. apply polite_bind.
  - apply polite_transmit; [exact Hp | apply bytes_1 | now left].
  - intros _. apply polite_receive, Hp.
Qed.

Lemma polite_ReadEpAddr (S : ptr -> Prop) (p : ptr) (REG : Z) (buffer : list Z) :
  S p -> polite S (_ReadEpAddr (InMem p) REG buffer).
Proof.
  intros Hp. unfold _ReadEpAddr. apply polite_bind.
  - apply polite_transmit; [exact Hp | apply bytes_1 | now left].
  - intros _. apply polite_receive, Hp.
Qed.

Lemma fills_ReadAddr (dac : href) (REG : Z) : fills (_ReadAddr dac REG).
Proof.
  intros buffer w. unfold _ReadAddr, bind, receive. cbn [fst snd].
  split; [apply write_buffer_length |].
  split; [apply write_buffer_skipn | apply write_buffer_bytes].
Qed.

Lemma fills_ReadEpAddr (dac : href) (REG : Z) : fills (_ReadEpAddr dac REG).
Proof.
  intros buffer w. unfold _ReadEpAddr, bind, receive. cbn [fst snd].
  split; [apply write_buffer_length |].
  split; [apply write_buffer_skipn | apply write_buffer_bytes].
Qed.

Lemma polite_FastWrite (S : ptr -> Prop) (p : ptr) (REG DATA : Z) :
  S p -> polite S (_FastWrite (InMem p) REG DATA).
Proof.
  intros Hp. unfold _FastWrite.
  apply polite_transmit; [exact Hp | | now right].
  apply bytes_3; apply u8_range.
Qed.

Lemma polite_WriteAddr (S : ptr -> Prop) (p : ptr) (REG d : Z) :
  S p -> 0 <= d < 256 -> polite S (_WriteAddr (InMem p) REG d).
Proof.
  intros Hp Hd. unfold _WriteAddr.
  destruct (Z.eqb REG GAIN_REG);
    (apply polite_transmit; [exact Hp | | now right]);
    apply bytes_3; try apply u8_range; lia.
Qed.

Lemma polite_LockSALCK (S : ptr -> Prop) (p : ptr) (addr : Z) :
  S p -> polite S (MCP47FEB_LockSALCK p addr).
Proof.
  intros Hp w. unfold MCP47FEB_LockSALCK, _WriteAddr.
  change (Z.eqb (Z.lor SALCK UNLOCK_SALCK) GAIN_REG) with false.
  change (u8 (Z.lor (Z.lor SALCK UNLOCK_SALCK) WRITE)) with 0xD2.
  unfold transmit. cbn [snd deref firstn hi2c].
  apply evolves_event with (p := p); [exact Hp |].
  cbn [expected_event]. repeat split; auto. apply bytes_3; lia.
Qed.

Lemma polite_IsReady (S : ptr -> Prop) (p : ptr) :
  S p -> polite S (MCP47FEB_IsReady p).
Proof.
  intros Hp w. unfold MCP47FEB_IsReady. cbn [snd].
  apply evolves_event with (p := p); [exact Hp |].
  cbn [expected_event]. auto.
Qed.

(** Take a driver function apart along its binds. *)
Ltac polite_steps Hp :=
  repeat match goal with
    | |- polite _ (bind _ _) => apply polite_bind; [| intros ?]
    | |- polite _ (ret _) => apply polite_ret
    | |- polite _ get_readBuffer => apply polite_get_readBuffer
    | |- polite _ (_FastWrite _ _ _) => apply polite_FastWrite; exact Hp
    | |- polite _ (_WriteAddr _ _ _) =>
        apply polite_WriteAddr; [exact Hp | first [apply u8_range | lia]]
    | |- polite _ (_ReadAddr _ _ _) => apply polite_ReadAddr; exact Hp
    | |- polite _ (_ReadEpAddr _ _ _) => apply polite_ReadEpAddr; exact Hp
    | |- polite _ (on_readBuffer (_ReadAddr _ _)) =>
        apply polite_on_readBuffer;
          [intros ?; apply polite_ReadAddr; exact Hp | apply fills_ReadAddr]
    | |- polite _ (on_readBuffer (_ReadEpAddr _ _)) =>
        apply polite_on_readBuffer;
          [intros ?; apply polite_ReadEpAddr; exact Hp | apply fills_ReadEpAddr]
    end.

Lemma polite_GetValue S p channel : S p -> polite S (MCP47FEB_GetValue p channel).
Proof. intros Hp. unfold MCP47FEB_GetValue. polite_steps Hp. Qed.

Lemma polite_GetVref S p channel : S p -> polite S (MCP47FEB_GetVref p channel).
Proof. intros Hp. unfold MCP47FEB_GetVref. polite_steps Hp. Qed.

Lemma polite_GetGain S p channel : S p -> polite S (MCP47FEB_GetGain p channel).
Proof. intros Hp. unfold MCP47FEB_GetGain. polite_steps Hp. Qed.

Lemma polite_GetPowerDown S p channel : S p -> polite S (MCP47FEB_GetPowerDown p channel).
Proof. intros Hp. unfold MCP47FEB_GetPowerDown. polite_steps Hp. Qed.

Lemma polite_EEPROMWrite S p : S p -> polite S (MCP47FEB_EEPROMWrite p).
Proof.
  intros Hp. unfold MCP47FEB_EEPROMWrite.
  repeat match goal with
    | |- polite _ (bind _ _) => apply polite_bind; [| intros ?]
    | |- polite _ (_FastWrite _ _ _) => apply polite_FastWrite; exact Hp
    | |- polite _ (MCP47FEB_GetValue _ _) => apply polite_GetValue; exact Hp
    | |- polite _ (MCP47FEB_GetVref _ _) => apply polite_GetVref; exact Hp
    | |- polite _ (MCP47FEB_GetGain _ _) => apply polite_GetGain; exact Hp
    | |- polite _ (MCP47FEB_GetPowerDown _ _) => apply polite_GetPowerDown; exact Hp
    end.
Qed.

Lemma polite_UnlockSALCK S p : S p -> polite S (MCP47FEB_UnlockSALCK p).
Proof.
  intros Hp. unfold MCP47FEB_UnlockSALCK. apply polite_WriteAddr; [exact Hp | lia].
Qed.

Lemma polite_SetPowerDown S p v0 v1 : S p -> polite S (MCP47FEB_SetPowerDown p v0 v1).
Proof. intros Hp. unfold MCP47FEB_SetPowerDown. polite_steps Hp. Qed.

Lemma polite_GetPowerDownEp S p channel :
  S p -> polite S (MCP47FEB_GetPowerDownEp p channel).
Proof. intros Hp. unfold MCP47FEB_GetPowerDownEp. polite_steps Hp. Qed.

Lemma polite_SetGain S p v0 v1 : S p -> polite S (MCP47FEB_SetGain p v0 v1).
Proof. intros Hp. unfold MCP47FEB_SetGain. polite_steps Hp. Qed.

Lemma polite_GetGainEp S p channel : S p -> polite S (MCP47FEB_GetGainEp p channel).
Proof. intros Hp. unfold MCP47FEB_GetGainEp. polite_steps Hp. Qed.

Lemma polite_SetVref S p v0 v1 : S p -> polite S (MCP47FEB_SetVref p v0 v1).
Proof. intros Hp. unfold MCP47FEB_SetVref. polite_steps Hp. Qed.

Lemma polite_GetVrefEp S p channel : S p -> polite S (MCP47FEB_GetVrefEp p channel).
Proof. intros Hp. unfold MCP47FEB_GetVrefEp. polite_steps Hp. Qed.

Lemma polite_AnalogWrite S p v0 v1 : S p -> polite S (MCP47FEB_AnalogWrite p v0 v1).
Proof. intros Hp. unfold MCP47FEB_AnalogWrite. polite_steps Hp. Qed.

Lemma run_call_evolves (w : World D) (dac : ptr) (c : api_call) :
  evolves (eq dac) w (run_call dac c w).
Proof.
  assert (Hp : dac = dac) by reflexivity.
  destruct c; cbn [run_call].
  - apply polite_IsReady, Hp.
  - apply polite_UnlockSALCK, Hp.
  - apply polite_LockSALCK, Hp.
  - apply polite_GetPowerDown, Hp.
  - apply polite_SetPowerDown, Hp.
  - apply polite_GetPowerDownEp, Hp.
  - apply polite_GetGain, Hp.
  - apply polite_SetGain, Hp.
  - apply polite_GetGainEp, Hp.
  - apply polite_GetVref, Hp.
  - apply polite_SetVref, Hp.
  - apply polite_GetVrefEp, Hp.
  - apply polite_GetValue, Hp.
  - apply polite_AnalogWrite, Hp.
  - apply polite_EEPROMWrite, Hp.
Qed.

End Runs.

(** Checking a property of a byte on all 256 of them. *)
Lemma byte_cases (P : Z -> bool) :
  forallb P (map Z.of_nat (seq 0 256)) = true ->
  forall c, 0 <= c < 256 -> P c = true.
Proof.
  intros H c Hc. rewrite forallb_forall in H. apply H.
  apply in_map_iff. exists (Z.to_nat c). split; [lia |]. apply in_seq. lia.
Qed.

Section Further.

Context {D : Type} `{P : Platform D}.

Lemma run_calls_evolves (cs : list (ptr * api_call)) (w : World D) :
  evolves (fun _ => True) w (run_calls cs w).
Proof.
  revert w. induction cs as [| [dac c] cs IH]; intros w; cbn [run_calls].
  - apply evolves_refl.
  - eapply evolves_trans; [| apply IH].
    apply evolves_weaken with (S := eq dac); [auto | apply run_call_evolves].
Qed.

Lemma run_calls_on_evolves (dac : ptr) (calls : list api_call) (w : World D) :
  evolves (eq dac) w (run_calls (map (pair dac) calls) w).
Proof.
  revert w. induction calls as [| c calls IH]; intros w; cbn [run_calls map].
  - apply evolves_refl.
  - eapply evolves_trans; [apply run_call_evolves | apply IH].
Qed.

(** X1: once the static receive buffer is a five-byte array it stays one
    through every sequence of driver calls, on whatever handles: its
    length is kept, its contents remain bytes, and its last three
    positions are never written. *)
Theorem readBuffer_stays_tidy (cs : list (ptr * api_call)) (w : World D) :
  length (readBuffer w) = 5%nat -> bytes (readBuffer w) ->
  length (readBuffer (run_calls cs w)) = 5%nat
  /\ bytes (readBuffer (run_calls cs w))
  /\ skipn 2 (readBuffer (run_calls cs w)) = skipn 2 (readBuffer w).
Proof.
  intros Hl Hb. destruct (run_calls_evolves cs w) as (_ & Hl' & Hs & Hb' & _).
  split; [congruence |]. split; [auto | exact Hs].
Qed.

(** X2: whatever sequence of operations is run on a handle, every call
    into the HAL goes through the transport of that handle; every
    transmission has one or three bytes and every reception asks for two,
    at the bus address of the handle and with the driver's timeout (the
    probe: two trials, timeout 2); the one exception in addressing is the
    transmission [0xD2; 0; 0] of [MCP47FEB_LockSALCK]. *)
Theorem calls_stay_on_the_handle (dac : ptr) (calls : list api_call) (w : World D) :
  exists new,
    trace (run_calls (map (pair dac) calls) w) = trace w ++ new
    /\ Forall (expected_event (handles w dac)) new.
Proof.
  destruct (run_calls_on_evolves dac calls w) as (_ & _ & _ & _ & new & Ht & Hf).
  exists new. split; [exact Ht |].
  eapply Forall_impl; [| exact Hf]. intros e (p & <- & He). exact He.
Qed.

(** The streamed read of [REG] into the static buffer: what is delivered
    overwrites the first positions of the buffer. *)
Lemma on_readBuffer_ReadAddr (w : World D) (dac : ptr) (REG : Z) :
  readBuffer (snd (on_readBuffer (_ReadAddr (InMem dac) REG) w)) =
    write_buffer (readBuffer w)
      (delivered (handles w dac) (u8 (Z.lor READ (Z.shiftl REG 3))) (bus w)) 2.
Proof. reflexivity. Qed.

(** X3: when the transport delivers at least two bytes [b0], [b1] to its
    read and the receive buffer has room for them, [MCP47FEB_GetValue]
    returns the 12-bit value whose high part is the low nibble of [b0] and
    whose low part is [b1]; the high nibble of [b0] plays no part. *)
Theorem GetValue_decodes_delivered_bytes (w : World D) (dac : ptr) (channel b0 b1 : Z)
        (more : list Z) :
  (2 <= length (readBuffer w))%nat ->
  delivered (handles w dac) (u8 (Z.lor READ (Z.shiftl (u8 (Z.shiftl channel 3)) 3))) (bus w)
    = b0 :: b1 :: more ->
  fst (MCP47FEB_GetValue dac channel w) = (b0 mod 16) * 256 + b1 mod 256
  /\ 0 <= fst (MCP47FEB_GetValue dac channel w) < 4096.
Proof.
  intros Hl Hd.
  assert (Hv : fst (MCP47FEB_GetValue dac channel w) =
    u16 (word (Z.land (nth 0 (readBuffer (snd (on_readBuffer
           (_ReadAddr (InMem dac) (u8 (Z.shiftl channel 3))) w))) 0) 0x0F)
         (nth 1 (readBuffer (snd (on_readBuffer
           (_ReadAddr (InMem dac) (u8 (Z.shiftl channel 3))) w))) 0))) by reflexivity.
  rewrite Hv, on_readBuffer_ReadAddr, Hd.
  destruct (readBuffer w) as [| x0 [| x1 rest]]; cbn [length] in Hl; try lia.
  cbn [write_buffer nth].
  destruct (word_nibble_byte (u8 b0) (u8 b1) (u8_range b1)) as [Hw Hr].
  assert (Hm : u8 b0 mod 16 = b0 mod 16).
  { unfold u8. apply Z.mod_mod_divide. exists 16. reflexivity. }
  rewrite u16_small by lia. rewrite Hw in *. rewrite Hm in *.
  change (u8 b1) with (b1 mod 256) in *. split; [reflexivity | exact Hr].
Qed.

Lemma ReadAddr_nothing_delivered (w : World D) (dac : ptr) (REG : Z) :
  delivered (handles w dac) (u8 (Z.lor READ (Z.shiftl REG 3))) (bus w) = [] ->
  readBuffer (snd (on_readBuffer (_ReadAddr (InMem dac) REG) w)) = readBuffer w.
Proof. intros Hd. rewrite on_readBuffer_ReadAddr, Hd. reflexivity. Qed.

(** X4: the accessors do not look at the status of the transport.  When
    nothing is delivered to the read of [MCP47FEB_GetPowerDown], the
    receive buffer is left as it was and the function returns the field of
    the byte an earlier read has left at position 1. *)
Theorem GetPowerDown_returns_stale_bits (w : World D) (dac : ptr) (channel : Z) :
  delivered (handles w dac) 0x4E (bus w) = [] ->
  readBuffer (snd (MCP47FEB_GetPowerDown dac channel w)) = readBuffer w
  /\ fst (MCP47FEB_GetPowerDown dac channel w) =
     (if Z.eqb channel 0
      then field (nth 1 (readBuffer w) 0) 0 2
      else field (nth 1 (readBuffer w) 0) 2 2).
Proof.
  intros Hd.
  pose proof (ReadAddr_nothing_delivered w dac PD_REG Hd) as Hrb.
  split; [exact Hrb |].
  change (fst (MCP47FEB_GetPowerDown dac channel w)) with
    (if Z.eqb channel 0
     then u8 (Z.land (nth 1 (readBuffer (snd (on_readBuffer
                (_ReadAddr (InMem dac) PD_REG) w))) 0) 0x03)
     else u8 (Z.shiftr (Z.land (nth 1 (readBuffer (snd (on_readBuffer
                (_ReadAddr (InMem dac) PD_REG) w))) 0) 0x0C) 2)).
  rewrite Hrb, pair_lo, pair_hi. reflexivity.
Qed.

(** X5: the voltage-reference and the power-down accessors decode the same
    position of the one static buffer.  After a read of the voltage
    reference, a power-down read to which nothing is delivered returns the
    voltage-reference bits of the channel asked for. *)
Theorem GetPowerDown_after_GetVref_cross_talk (w : World D) (dac : ptr)
        (channel channel' : Z) :
  delivered (handles w dac) 0x4E (bus (snd (MCP47FEB_GetVref dac channel' w))) = [] ->
  fst (MCP47FEB_GetPowerDown dac channel (snd (MCP47FEB_GetVref dac channel' w))) =
  fst (MCP47FEB_GetVref dac channel w).
Proof.
  intros Hd.
  set (w1 := snd (MCP47FEB_GetVref dac channel' w)) in *.
  pose proof (ReadAddr_nothing_delivered w1 dac PD_REG Hd) as Hrb.
  change (fst (MCP47FEB_GetPowerDown dac channel w1)) with
    (if Z.eqb channel 0
     then u8 (Z.land (nth 1 (readBuffer (snd (on_readBuffer
                (_ReadAddr (InMem dac) PD_REG) w1))) 0) 0x03)
     else u8 (Z.shiftr (Z.land (nth 1 (readBuffer (snd (on_readBuffer
                (_ReadAddr (InMem dac) PD_REG) w1))) 0) 0x0C) 2)).
  rewrite Hrb. reflexivity.
Qed.


(** X7: after [MCP47FEB_Init] with a 7-bit address [a], [MCP47FEB_IsReady]
    makes exactly one call into the HAL, the probe of bus address [2 * a]
    on the transport given to the initialisation, with two trials and
    timeout 2, and returns the status of that probe; it does not touch the
    receive buffer or the handle. *)
Theorem IsReady_after_Init (w : World D) (dac : ptr) (a : Z) (i2c : I2C_HandleTypeDef) :
  0 <= a < 128 ->
  let w0 := snd (MCP47FEB_Init dac a i2c w) in
  fst (MCP47FEB_IsReady dac w0) = fst (HAL_I2C_IsDeviceReady i2c (2 * a) 2 2 (bus w))
  /\ trace (snd (MCP47FEB_IsReady dac w0)) = trace w ++ [IsDeviceReady i2c (2 * a) 2 2]
  /\ bus (snd (MCP47FEB_IsReady dac w0)) = snd (HAL_I2C_IsDeviceReady i2c (2 * a) 2 2 (bus w))
  /\ readBuffer (snd (MCP47FEB_IsReady dac w0)) = readBuffer w
  /\ handles (snd (MCP47FEB_IsReady dac w0)) dac = mkDAC a i2c.
Proof.
  intros Ha w0.
  assert (Hdac : handles w0 dac = mkDAC a i2c).
  { unfold w0. run_driver. unfold poke. now rewrite !Nat.eqb_refl. }
  assert (Hb : bus_address (mkDAC a i2c) = 2 * a).
  { unfold bus_address. cbn [devAddr]. rewrite Z.shiftl_mul_pow2 by lia.
    change (2 ^ 1) with 2. rewrite u16_small by lia. lia. }
  unfold MCP47FEB_IsReady. cbn [fst snd trace bus readBuffer handles].
  rewrite Hdac. cbn [hi2c]. rewrite Hb. repeat split.
Qed.

(** X8: the mirror-bank read of register [r] is the streamed read of
    register [r + 0x10]: for the sixteen indices of the working bank
    [_ReadEpAddr] and [_ReadAddr] at the mirror index do the same, and the
    command byte addresses the register that a fast write to the mirror
    index addresses (bits 7..3 of both command bytes are [r + 0x10]). *)
Theorem ReadEpAddr_reads_mirror_index (w : World D) (dac : href) (r : Z) (buffer : list Z) :
  0 <= r < 16 ->
  _ReadEpAddr dac r buffer w = _ReadAddr dac (r + 0x10) buffer w
  /\ Z.shiftr (u8 (Z.lor 0x80 (Z.lor READ (Z.shiftl r 3)))) 3 = r + 0x10
  /\ Z.shiftr (u8 (Z.lor (Z.shiftl (r + 0x10) 3) WRITE)) 3 = r + 0x10.
Proof.
  intros Hr.
  pose proof (byte_cases
    (fun r => implb (r <? 16)
       ((u8 (Z.lor 0x80 (Z.lor READ (Z.shiftl r 3)))
           =? u8 (Z.lor READ (Z.shiftl (r + 0x10) 3)))
        && (Z.shiftr (u8 (Z.lor 0x80 (Z.lor READ (Z.shiftl r 3)))) 3 =? r + 0x10)
        && (Z.shiftr (u8 (Z.lor (Z.shiftl (r + 0x10) 3) WRITE)) 3 =? r + 0x10)))
    ltac:(vm_compute; reflexivity) r ltac:(lia)) as Hall.
  cbv beta in Hall.
  replace (r <? 16) with true in Hall by (symmetry; apply Z.ltb_lt; lia).
  cbn [implb] in Hall.
  apply andb_true_iff in Hall. destruct Hall as [Hall H3].
  apply andb_true_iff in Hall. destruct Hall as [H1 H2].
  apply Z.eqb_eq in H1, H2, H3.
  split; [| split; assumption].
  unfold _ReadEpAddr, _ReadAddr. rewrite H1. reflexivity.
Qed.

(** X9: the two write framings meet on the bus.  An addressed write of a
    byte [d] under the command byte [r << 3] is the very transmission of
    a fast write of [d] to register [r]; so [MCP47FEB_SetVref], whose
    register constant is [0x08], transmits what a fast write of its packed
    byte to register DAC1 transmits. *)
Theorem WriteAddr_meets_FastWrite (w : World D) (dac : href) (r d : Z) (p : ptr) (v0 v1 : Z) :
  0 <= r < 32 -> 0 <= d < 256 ->
  _WriteAddr dac (Z.shiftl r 3) d w = _FastWrite dac r d w
  /\ MCP47FEB_SetVref p v0 v1 w =
     _FastWrite (InMem p) DAC1_REG (u8 (Z.lor v0 (Z.shiftl v1 2))) w.
Proof.
  intros Hr Hd.
  assert (Hgen : forall r d, 0 <= r < 32 -> 0 <= d < 256 ->
            forall dac, _WriteAddr dac (Z.shiftl r 3) d w = _FastWrite dac r d w).
  { clear. intros r d Hr Hd dac. unfold _WriteAddr, _FastWrite.
    assert (Hne : Z.eqb (Z.shiftl r 3) GAIN_REG = false).
    { apply Z.eqb_neq. rewrite Z.shiftl_mul_pow2 by lia. unfold GAIN_REG.
      change (2 ^ 3) with 8. lia. }
    rewrite Hne.
    assert (H1 : u8 (Z.land (Z.shiftr d 8) 255) = 0).
    { rewrite Z.shiftr_div_pow2 by lia. change (2 ^ 8) with 256.
      rewrite Z.div_small by lia. reflexivity. }
    assert (H2 : u8 (Z.land d 255) = d).
    { change 255 with (Z.ones 8). rewrite Z.land_ones by lia.
      change (2 ^ 8) with 256. rewrite Z.mod_small by lia. apply u8_small. lia. }
    rewrite H1, H2. reflexivity. }
  split; [apply Hgen; assumption |].
  unfold MCP47FEB_SetVref.
  change VREF_REG with (Z.shiftl DAC1_REG 3).
  apply Hgen; [unfold DAC1_REG; lia | apply u8_range].
Qed.

(** X10: [MCP47FEB_GetValue] shifts its channel by three bits and
    [_ReadAddr] shifts it by three more, so only the two low bits of the
    channel reach the command byte: for every [uint8_t] channel the call
    is the call with [channel mod 4], its command byte is
    [0x06 + 0x40 * (channel mod 4)], and the register read is one of
    0x00, 0x08, 0x10, 0x18, never DAC1 (command byte [0x0E]). *)
Theorem GetValue_channel_mod_4 (w : World D) (dac : ptr) (channel : Z) :
  0 <= channel < 256 ->
  MCP47FEB_GetValue dac channel w = MCP47FEB_GetValue dac (channel mod 4) w
  /\ trace (snd (MCP47FEB_GetValue dac channel w)) =
     trace w ++ read_frame (handles w dac) (0x06 + 0x40 * (channel mod 4))
  /\ Z.shiftr (0x06 + 0x40 * (channel mod 4)) 3 = 8 * (channel mod 4)
  /\ 0x06 + 0x40 * (channel mod 4) <> 0x0E.
Proof.
  intros Hc.
  pose proof (byte_cases
    (fun c => (u8 (Z.lor READ (Z.shiftl (u8 (Z.shiftl c 3)) 3)) =? 0x06 + 0x40 * (c mod 4))
              && (Z.shiftr (0x06 + 0x40 * (c mod 4)) 3 =? 8 * (c mod 4))
              && negb (0x06 + 0x40 * (c mod 4) =? 0x0E))
    ltac:(vm_compute; reflexivity) channel Hc) as Hall.
  cbv beta in Hall.
  apply andb_true_iff in Hall. destruct Hall as [Hall H4].
  apply andb_true_iff in Hall. destruct Hall as [H1 H3].
  apply Z.eqb_eq in H1, H3. apply negb_true_iff, Z.eqb_neq in H4.
  assert (Hm : 0 <= channel mod 4 < 256).
  { pose proof (Z.mod_pos_bound channel 4 ltac:(lia)). lia. }
  pose proof (byte_cases
    (fun c => (u8 (Z.lor READ (Z.shiftl (u8 (Z.shiftl c 3)) 3)) =? 0x06 + 0x40 * (c mod 4)))
    ltac:(vm_compute; reflexivity) (channel mod 4) Hm) as H1'.
  cbv beta in H1'. apply Z.eqb_eq in H1'.
  rewrite Z.mod_mod in H1' by lia.
  split; [| split; [| split; assumption]].
  - unfold MCP47FEB_GetValue, _ReadAddr. rewrite H1, H1'. reflexivity.
  - rewrite GetValue_trace, H1. reflexivity.
Qed.

(** X14: unlike [MCP47FEB_GetGain], the mirror-bank accessor
    [MCP47FEB_GetGainEp] reads into the static buffer.  When nothing is
    delivered to its read it returns, not 0, but bit 0 or bit 1 of the
    byte an earlier read has left at position 0 of that buffer. *)
Theorem GetGainEp_returns_stale_bits (w : World D) (dac : ptr) (channel : Z) :
  delivered (handles w dac) 0xD6 (bus w) = [] ->
  readBuffer (snd (MCP47FEB_GetGainEp dac channel w)) = readBuffer w
  /\ fst (MCP47FEB_GetGainEp dac channel w) =
     (if Z.eqb channel 0
      then field (nth 0 (readBuffer w) 0) 0 1
      else field (nth 0 (readBuffer w) 0) 1 1).
Proof.
  intros Hd.
  assert (Hrb : readBuffer (snd (on_readBuffer (_ReadEpAddr (InMem dac) GAIN_REG) w))
                = readBuffer w).
  { change (readBuffer (snd (on_readBuffer (_ReadEpAddr (InMem dac) GAIN_REG) w)))
      with (write_buffer (readBuffer w) (delivered (handles w dac) 0xD6 (bus w)) 2).
    rewrite Hd. reflexivity. }
  split; [exact Hrb |].
  change (fst (MCP47FEB_GetGainEp dac channel w)) with
    (if Z.eqb channel 0
     then u8 (Z.land (nth 0 (readBuffer (snd (on_readBuffer
                (_ReadEpAddr (InMem dac) GAIN_REG) w))) 0) 0x01)
     else u8 (Z.shiftr (Z.land (nth 0 (readBuffer (snd (on_readBuffer
                (_ReadEpAddr (InMem dac) GAIN_REG) w))) 0) 0x02) 1)).
  rewrite Hrb, bit_lo, bit_hi. reflexivity.
Qed.

(** The accessors in terms of what is delivered to their read. *)
Lemma GetGain_delivered (w : World D) (dac : ptr) (channel : Z) :
  fst (MCP47FEB_GetGain dac channel w) =
  (if Z.eqb channel 0
   then field (nth 0 (write_buffer [0; 0; 0; 0; 0]
                        (delivered (handles w dac) 0x56 (bus w)) 2) 0) 0 1
   else field (nth 0 (write_buffer [0; 0; 0; 0; 0]
                        (delivered (handles w dac) 0x56 (bus w)) 2) 0) 1 1).
Proof. rewrite <- bit_lo, <- bit_hi. reflexivity. Qed.

Lemma GetVref_delivered (w : World D) (dac : ptr) (channel : Z) :
  fst (MCP47FEB_GetVref dac channel w) =
  (if Z.eqb channel 0
   then field (nth 1 (write_buffer (readBuffer w)
                        (delivered (handles w dac) 0x46 (bus w)) 2) 0) 0 2
   else field (nth 1 (write_buffer (readBuffer w)
                        (delivered (handles w dac) 0x46 (bus w)) 2) 0) 2 2).
Proof. rewrite <- pair_lo, <- pair_hi. reflexivity. Qed.

Lemma GetPowerDown_delivered (w : World D) (dac : ptr) (channel : Z) :
  fst (MCP47FEB_GetPowerDown dac channel w) =
  (if Z.eqb channel 0
   then field (nth 1 (write_buffer (readBuffer w)
                        (delivered (handles w dac) 0x4E (bus w)) 2) 0) 0 2
   else field (nth 1 (write_buffer (readBuffer w)
                        (delivered (handles w dac) 0x4E (bus w)) 2) 0) 2 2).
Proof. rewrite <- pair_lo, <- pair_hi. reflexivity. Qed.

End Further.

(** ** Bit fields through a set and a get *)

Lemma field_mod x k : 0 <= k -> field x 0 k = x mod 2 ^ k.
Proof. intros Hk. unfold field. rewrite Z.shiftr_0_r. apply Z.land_ones, Hk. Qed.

Lemma field_u8 x lo wd :
  0 <= lo -> 0 <= wd -> lo + wd <= 8 -> field (u8 x) lo wd = field x lo wd.
Proof.
  intros Hlo Hwd Hsum. unfold field, u8. apply Z.bits_inj'. intros n Hn.
  rewrite !Z.land_spec, !Z.shiftr_spec by lia.
  destruct (Z.ltb_spec n wd) as [Hlt | Hge].
  - rewrite Z.mod_pow2_bits_low by lia. reflexivity.
  - rewrite Z.ones_spec_high by lia. now rewrite !andb_false_r.
Qed.

Lemma field_pack_lo a b k : 0 < k -> field (Z.lor a (Z.shiftl b k)) 0 k = field a 0 k.
Proof.
  intros Hk. unfold field. apply Z.bits_inj'. intros n Hn.
  rewrite !Z.land_spec, !Z.shiftr_spec, Z.lor_spec by lia.
  destruct (Z.ltb_spec n k) as [Hlt | Hge].
  - rewrite (Z.shiftl_spec_low b k (n + 0)) by lia. now rewrite orb_false_r.
  - rewrite Z.ones_spec_high by lia. now rewrite !andb_false_r.
Qed.

Lemma field_pack_hi a b k :
  0 < k -> field (Z.lor a (Z.shiftl b k)) k k = field (Z.lor b (Z.shiftr a k)) 0 k.
Proof.
  intros Hk. unfold field.
  rewrite Z.shiftr_lor, Z.shiftr_shiftl_l, Z.sub_diag, Z.shiftl_0_r, Z.shiftr_0_r by lia.
  now rewrite Z.lor_comm.
Qed.

(** What comes back from a byte packed as [v0 | v1 << k] and cut to a
    [uint8_t] twice on its way, in fields of [k] bits. *)
Lemma unpack_fields v0 v1 k :
  0 < k -> 2 * k <= 8 -> 0 <= v0 ->
  field (u8 (u8 (Z.lor v0 (Z.shiftl v1 k)))) 0 k = v0 mod 2 ^ k
  /\ field (u8 (u8 (Z.lor v0 (Z.shiftl v1 k)))) k k = Z.lor v1 (Z.shiftr v0 k) mod 2 ^ k
  /\ (v0 < 2 ^ k -> 0 <= v1 < 2 ^ k ->
      v0 mod 2 ^ k = v0 /\ Z.lor v1 (Z.shiftr v0 k) mod 2 ^ k = v1).
Proof.
  intros Hk H2k Hv0.
  rewrite !field_u8, field_pack_lo, field_pack_hi, !field_mod by lia.
  split; [reflexivity |]. split; [reflexivity |].
  intros Hlt Hv1. split; [apply Z.mod_small; lia |].
  rewrite Z.shiftr_div_pow2, Z.div_small, Z.lor_0_r by lia.
  apply Z.mod_small; lia.
Qed.

Section SimulatedFields.

Variable delay : Z.

Local Abbreviation SetGain := (@MCP47FEB_SetGain _ (SimPlatform delay)).
Local Abbreviation GetGain := (@MCP47FEB_GetGain _ (SimPlatform delay)).
Local Abbreviation SetVref := (@MCP47FEB_SetVref _ (SimPlatform delay)).
Local Abbreviation GetVref := (@MCP47FEB_GetVref _ (SimPlatform delay)).
Local Abbreviation SetPowerDown := (@MCP47FEB_SetPowerDown _ (SimPlatform delay)).
Local Abbreviation GetPowerDown := (@MCP47FEB_GetPowerDown _ (SimPlatform delay)).

(** An addressed write on the simulated device. *)
Lemma sim_WriteAddr (w : World SimDevice) (dac : ptr) (REG d : Z) :
  sim_address (bus w) = bus_address (handles w dac) ->
  0 <= REG < 256 ->
  snd (@_WriteAddr _ (SimPlatform delay) (InMem dac) REG d w) =
    mkWorld (handles w) (readBuffer w)
      (mkSim (sim_address (bus w))
         (fun r => if Z.eqb r REG
                   then (if Z.eqb REG GAIN_REG then (d, 0) else (0, d))
                   else sim_regs (bus w) r)
         (sim_selected (bus w)))
      (trace (snd (@_WriteAddr _ (SimPlatform delay) (InMem dac) REG d w))).
Proof.
  intros Hb HR. unfold _WriteAddr. rewrite Z.lor_0_r, (u8_small REG HR).
  destruct (Z.eqb REG GAIN_REG); unfold transmit;
    cbn [snd deref firstn trace HAL_I2C_Master_Transmit SimPlatform];
    unfold sim_transmit; rewrite <- Hb, Z.eqb_refl; reflexivity.
Qed.

(** What the simulated device delivers to a streamed read. *)
Lemma sim_delivered (w : World SimDevice) (dac : ptr) (REG : Z) :
  sim_address (bus w) = bus_address (handles w dac) ->
  0 <= REG < 32 ->
  delivered (P := SimPlatform delay) (handles w dac)
    (u8 (Z.lor READ (Z.shiftl REG 3))) (bus w) =
  [fst (sim_regs (bus w) REG); snd (sim_regs (bus w) REG)].
Proof.
  intros Hb HR.
  pose proof (byte_cases
    (fun r => implb (r <? 32)
       (Z.land (Z.shiftr (u8 (Z.lor READ (Z.shiftl r 3))) 3) 31 =? r))
    ltac:(vm_compute; reflexivity) REG ltac:(lia)) as Hsel.
  cbv beta in Hsel.
  replace (REG <? 32) with true in Hsel by (symmetry; apply Z.ltb_lt; lia).
  cbn [implb] in Hsel. apply Z.eqb_eq in Hsel.
  unfold delivered. cbn [HAL_I2C_Master_Transmit HAL_I2C_Master_Receive SimPlatform].
  unfold sim_transmit, sim_receive. rewrite <- Hb, Z.eqb_refl.
  cbn [snd fst sim_address sim_regs sim_selected]. rewrite Z.eqb_refl, Hsel.
  reflexivity.
Qed.

(** X11: on a bus carrying the simulated device, what [MCP47FEB_GetGain]
    reads back after [MCP47FEB_SetGain] with byte-sized arguments: the
    arguments are not masked, so channel 0 reads [val0 mod 2] and channel 1
    reads bit 0 of [val1 | val0 >> 1]; arguments that are 0 or 1 come back
    unchanged.  The byte is sent in payload position 1 and decoded from the
    first byte received. *)
Theorem Gain_read_back (w : World SimDevice) (dac : ptr) (v0 v1 : Z) :
  sim_address (bus w) = bus_address (handles w dac) ->
  0 <= v0 < 256 -> 0 <= v1 < 256 ->
  fst (GetGain dac 0 (snd (SetGain dac v0 v1 w))) = v0 mod 2
  /\ fst (GetGain dac 1 (snd (SetGain dac v0 v1 w))) = Z.lor v1 (Z.shiftr v0 1) mod 2
  /\ (v0 <= 1 -> v1 <= 1 ->
      fst (GetGain dac 0 (snd (SetGain dac v0 v1 w))) = v0
      /\ fst (GetGain dac 1 (snd (SetGain dac v0 v1 w))) = v1).
Proof.
  intros Hb H0 H1.
  destruct (unpack_fields v0 v1 1 ltac:(lia) ltac:(lia) ltac:(lia)) as (U0 & U1 & Uin).
  change (2 ^ 1) with 2 in *.
  unfold MCP47FEB_SetGain.
  rewrite (sim_WriteAddr w dac GAIN_REG _ Hb ltac:(unfold GAIN_REG; lia)).
  set (w1 := mkWorld _ _ _ _).
  assert (Hb1 : sim_address (bus w1) = bus_address (handles w1 dac)) by exact Hb.
  rewrite !GetGain_delivered.
  change 0x56 with (u8 (Z.lor READ (Z.shiftl GAIN_REG 3))).
  rewrite (sim_delivered w1 dac GAIN_REG Hb1 ltac:(unfold GAIN_REG; lia)).
  unfold w1. cbn [bus sim_regs]. rewrite !Z.eqb_refl. cbn [fst snd write_buffer nth].
  change (Z.eqb 0 0) with true. change (Z.eqb 1 0) with false. cbv iota.
  rewrite U0, U1. split; [reflexivity |]. split; [reflexivity |].
  intros L0 L1. apply Uin; lia.
Qed.

(** What the two-bit accessors read back on the simulated device after an
    addressed write of a packed byte to their register. *)
Lemma sim_pairs_read_back (w : World SimDevice) (dac : ptr) (REG v0 v1 : Z) :
  sim_address (bus w) = bus_address (handles w dac) ->
  (2 <= length (readBuffer w))%nat ->
  0 <= REG < 32 -> REG <> GAIN_REG ->
  let w1 := snd (@_WriteAddr _ (SimPlatform delay) (InMem dac) REG
                   (u8 (Z.lor v0 (Z.shiftl v1 2))) w) in
  nth 1 (write_buffer (readBuffer w1)
           (delivered (P := SimPlatform delay) (handles w1 dac)
              (u8 (Z.lor READ (Z.shiftl REG 3))) (bus w1)) 2) 0
  = u8 (u8 (Z.lor v0 (Z.shiftl v1 2))).
Proof.
  intros Hb Hl HR Hne w1. unfold w1.
  rewrite (sim_WriteAddr w dac REG _ Hb ltac:(lia)).
  set (w2 := mkWorld _ _ _ _).
  assert (Hb2 : sim_address (bus w2) = bus_address (handles w2 dac)) by exact Hb.
  rewrite (sim_delivered w2 dac REG Hb2 HR).
  unfold w2. cbn [bus sim_regs readBuffer]. rewrite !Z.eqb_refl.
  apply Z.eqb_neq in Hne. rewrite Hne. cbn [fst snd].
  destruct (readBuffer w) as [| x0 [| x1 rest]]; cbn [length] in Hl; try lia.
  reflexivity.
Qed.

(** X12: on a bus carrying the simulated device, [MCP47FEB_GetVref] after
    [MCP47FEB_SetVref] returns [val0 mod 4] for channel 0 and the two low
    bits of [val1 | val0 >> 2] for channel 1: a [val0] above 3 spills into
    the field of channel 1; arguments in 0..3 come back unchanged. *)
Theorem Vref_read_back (w : World SimDevice) (dac : ptr) (v0 v1 : Z) :
  sim_address (bus w) = bus_address (handles w dac) ->
  (2 <= length (readBuffer w))%nat ->
  0 <= v0 < 256 -> 0 <= v1 < 256 ->
  fst (GetVref dac 0 (snd (SetVref dac v0 v1 w))) = v0 mod 4
  /\ fst (GetVref dac 1 (snd (SetVref dac v0 v1 w))) = Z.lor v1 (Z.shiftr v0 2) mod 4
  /\ (v0 <= 3 -> v1 <= 3 ->
      fst (GetVref dac 0 (snd (SetVref dac v0 v1 w))) = v0
      /\ fst (GetVref dac 1 (snd (SetVref dac v0 v1 w))) = v1).
Proof.
  intros Hb Hl H0 H1.
  destruct (unpack_fields v0 v1 2 ltac:(lia) ltac:(lia) ltac:(lia)) as (U0 & U1 & Uin).
  change (2 ^ 2) with 4 in *.
  pose proof (sim_pairs_read_back w dac VREF_REG v0 v1 Hb Hl
                ltac:(unfold VREF_REG; lia) ltac:(discriminate)) as Hrd.
  cbv zeta in Hrd.
  rewrite !GetVref_delivered. unfold MCP47FEB_SetVref.
  change 0x46 with (u8 (Z.lor READ (Z.shiftl VREF_REG 3))).
  rewrite Hrd.
  change (Z.eqb 0 0) with true. change (Z.eqb 1 0) with false. cbv iota.
  rewrite U0, U1. split; [reflexivity |]. split; [reflexivity |].
  intros L0 L1. apply Uin; lia.
Qed.

(** X13: [MCP47FEB_SetPowerDown] does not mask its arguments either: on a
    bus carrying the simulated device, channel 0 reads back [val0 mod 4]
    and channel 1 the two low bits of [val1 | val0 >> 2]; so after
    [MCP47FEB_SetPowerDown(dac, 4, 0)] channel 0 reads 0 and channel 1
    reads 1. *)
Theorem PowerDown_read_back (w : World SimDevice) (dac : ptr) (v0 v1 : Z) :
  sim_address (bus w) = bus_address (handles w dac) ->
  (2 <= length (readBuffer w))%nat ->
  0 <= v0 < 256 -> 0 <= v1 < 256 ->
  fst (GetPowerDown dac 0 (snd (SetPowerDown dac v0 v1 w))) = v0 mod 4
  /\ fst (GetPowerDown dac 1 (snd (SetPowerDown dac v0 v1 w))) =
     Z.lor v1 (Z.shiftr v0 2) mod 4
  /\ (v0 = 4 -> v1 = 0 ->
      fst (GetPowerDown dac 0 (snd (SetPowerDown dac v0 v1 w))) = 0
      /\ fst (GetPowerDown dac 1 (snd (SetPowerDown dac v0 v1 w))) = 1).
Proof.
  intros Hb Hl H0 H1.
  destruct (unpack_fields v0 v1 2 ltac:(lia) ltac:(lia) ltac:(lia)) as (U0 & U1 & _).
  change (2 ^ 2) with 4 in *.
  pose proof (sim_pairs_read_back w dac PD_REG v0 v1 Hb Hl
                ltac:(unfold PD_REG; lia) ltac:(discriminate)) as Hrd.
  cbv zeta in Hrd.
  rewrite !GetPowerDown_delivered. unfold MCP47FEB_SetPowerDown.
  change 0x4E with (u8 (Z.lor READ (Z.shiftl PD_REG 3))).
  rewrite Hrd.
  change (Z.eqb 0 0) with true. change (Z.eqb 1 0) with false. cbv iota.
  rewrite U0, U1. split; [reflexivity |]. split; [reflexivity |].
  intros -> ->. split; reflexivity.
Qed.

End SimulatedFields.

(** ** The further properties at concrete inputs *)

Lemma readBuffer_stays_tidy_witness :
  length (readBuffer bench) = 5%nat /\ bytes (readBuffer bench)
  /\ length (readBuffer (run_calls (P := SimPlatform 100)
       [(0%nat, Call_GetValue 0); (0%nat, Call_SetGain 1 1); (0%nat, Call_EEPROMWrite)]
       bench)) = 5%nat
  /\ skipn 2 (readBuffer (run_calls (P := SimPlatform 100)
       [(0%nat, Call_GetValue 0); (0%nat, Call_SetGain 1 1); (0%nat, Call_EEPROMWrite)]
       bench)) = [0; 0; 0].
Proof.
  assert (Hl : length (readBuffer bench) = 5%nat) by reflexivity.
  assert (Hb : bytes (readBuffer bench)) by (repeat constructor; lia).
  split; [exact Hl |]. split; [exact Hb |].
  pose proof (readBuffer_stays_tidy (P := SimPlatform 100)
    [(0%nat, Call_GetValue 0); (0%nat, Call_SetGain 1 1); (0%nat, Call_EEPROMWrite)]
    bench Hl Hb) as (H1 & _ & H3).
  split; [exact H1 | exact H3].
Defined.

Lemma GetValue_decodes_delivered_bytes_witness :
  (2 <= length (readBuffer bench_loaded))%nat
  /\ delivered (P := SimPlatform 100) (handles bench_loaded 0%nat)
       (u8 (Z.lor READ (Z.shiftl (u8 (Z.shiftl 0 3)) 3))) (bus bench_loaded)
     = [0xAB; 0xCD]
  /\ fst (MCP47FEB_GetValue (P := SimPlatform 100) 0%nat 0 bench_loaded) = 0xBCD.
Proof.
  assert (Hl : (2 <= length (readBuffer bench_loaded))%nat) by (simpl; lia).
  assert (Hd : delivered (P := SimPlatform 100) (handles bench_loaded 0%nat)
                 (u8 (Z.lor READ (Z.shiftl (u8 (Z.shiftl 0 3)) 3))) (bus bench_loaded)
               = [0xAB; 0xCD]) by reflexivity.
  split; [exact Hl |]. split; [exact Hd |].
  exact (proj1 (GetValue_decodes_delivered_bytes (P := SimPlatform 100)
                  bench_loaded 0%nat 0 0xAB 0xCD [] Hl Hd)).
Defined.

Lemma GetPowerDown_returns_stale_bits_witness :
  delivered (P := SimPlatform 100) (handles bench_absent 0%nat) 0x4E (bus bench_absent) = []
  /\ fst (MCP47FEB_GetPowerDown (P := SimPlatform 100) 0%nat 0 bench_absent) = 3
  /\ fst (MCP47FEB_GetPowerDown (P := SimPlatform 100) 0%nat 1 bench_absent) = 2.
Proof.
  assert (Hd : delivered (P := SimPlatform 100) (handles bench_absent 0%nat) 0x4E
                 (bus bench_absent) = []) by reflexivity.
  split; [exact Hd |]. split.
  - exact (proj2 (GetPowerDown_returns_stale_bits (P := SimPlatform 100)
                    bench_absent 0%nat 0 Hd)).
  - exact (proj2 (GetPowerDown_returns_stale_bits (P := SimPlatform 100)
                    bench_absent 0%nat 1 Hd)).
Defined.

Lemma GetPowerDown_after_GetVref_cross_talk_witness :
  delivered (P := SimPlatform 100) (handles bench_absent 0%nat) 0x4E
    (bus (snd (MCP47FEB_GetVref (P := SimPlatform 100) 0%nat 0 bench_absent))) = []
  /\ fst (MCP47FEB_GetPowerDown (P := SimPlatform 100) 0%nat 1
            (snd (MCP47FEB_GetVref (P := SimPlatform 100) 0%nat 0 bench_absent))) =
     fst (MCP47FEB_GetVref (P := SimPlatform 100) 0%nat 1 bench_absent).
Proof.
  assert (Hd : delivered (P := SimPlatform 100) (handles bench_absent 0%nat) 0x4E
    (bus (snd (MCP47FEB_GetVref (P := SimPlatform 100) 0%nat 0 bench_absent))) = [])
    by reflexivity.
  split; [exact Hd |].
  exact (GetPowerDown_after_GetVref_cross_talk (P := SimPlatform 100)
           bench_absent 0%nat 1 0 Hd).
Defined.


Lemma GetGainEp_returns_stale_bits_witness :
  delivered (P := SimPlatform 100) (handles bench_absent 0%nat) 0xD6 (bus bench_absent) = []
  /\ fst (MCP47FEB_GetGainEp (P := SimPlatform 100) 0%nat 0 bench_absent) = 1.
Proof.
  assert (Hd : delivered (P := SimPlatform 100) (handles bench_absent 0%nat) 0xD6
                 (bus bench_absent) = []) by reflexivity.
  split; [exact Hd |].
  exact (proj2 (GetGainEp_returns_stale_bits (P := SimPlatform 100)
                  bench_absent 0%nat 0 Hd)).
Defined.

Lemma IsReady_after_Init_witness :
  0 <= 0x60 < 128
  /\ fst (MCP47FEB_IsReady (P := SimPlatform 100) 3%nat
            (snd (MCP47FEB_Init 3%nat 0x60 7%nat bench))) = HAL_OK
  /\ trace (snd (MCP47FEB_IsReady (P := SimPlatform 100) 3%nat
            (snd (MCP47FEB_Init 3%nat 0x60 7%nat bench)))) =
     [IsDeviceReady 7%nat 0xC0 2 2].
Proof.
  assert (Ha : 0 <= 0x60 < 128) by lia.
  split; [exact Ha |].
  pose proof (IsReady_after_Init (P := SimPlatform 100) bench 3%nat 0x60 7%nat Ha)
    as (H1 & H2 & _).
  split; [exact H1 | exact H2].
Defined.

Lemma ReadEpAddr_reads_mirror_index_witness :
  0 <= PD_REG < 16
  /\ _ReadEpAddr (P := SimPlatform 100) (InMem 0%nat) PD_REG [0; 0; 0; 0; 0] bench =
     _ReadAddr (P := SimPlatform 100) (InMem 0%nat) PD_EP_REG [0; 0; 0; 0; 0] bench.
Proof.
  assert (Hr : 0 <= PD_REG < 16) by (unfold PD_REG; lia).
  split; [exact Hr |].
  exact (proj1 (ReadEpAddr_reads_mirror_index (P := SimPlatform 100) bench (InMem 0%nat)
                  PD_REG [0; 0; 0; 0; 0] Hr)).
Defined.

Lemma WriteAddr_meets_FastWrite_witness :
  0 <= DAC1_REG < 32 /\ 0 <= 0x0B < 256
  /\ _WriteAddr (P := SimPlatform 100) (InMem 0%nat) VREF_REG 0x0B bench =
     _FastWrite (P := SimPlatform 100) (InMem 0%nat) DAC1_REG 0x0B bench.
Proof.
  assert (Hr : 0 <= DAC1_REG < 32) by (unfold DAC1_REG; lia).
  assert (Hd : 0 <= 0x0B < 256) by lia.
  split; [exact Hr |]. split; [exact Hd |].
  exact (proj1 (WriteAddr_meets_FastWrite (P := SimPlatform 100) bench (InMem 0%nat)
                  DAC1_REG 0x0B 0%nat 0 0 Hr Hd)).
Defined.

Lemma GetValue_channel_mod_4_witness :
  0 <= 5 < 256
  /\ MCP47FEB_GetValue (P := SimPlatform 100) 0%nat 5 bench =
     MCP47FEB_GetValue (P := SimPlatform 100) 0%nat 1 bench
  /\ trace (snd (MCP47FEB_GetValue (P := SimPlatform 100) 0%nat 5 bench)) =
     [Master_Transmit 0%nat 0xC0 [0x46] 100; Master_Receive 0%nat 0xC0 2 100].
Proof.
  assert (Hc : 0 <= 5 < 256) by lia.
  split; [exact Hc |].
  pose proof (GetValue_channel_mod_4 (P := SimPlatform 100) bench 0%nat 5 Hc)
    as (H1 & H2 & _).
  split; [exact H1 | exact H2].
Defined.

Lemma Gain_read_back_witness :
  sim_address (bus bench) = bus_address (handles bench 0%nat)
  /\ 0 <= 1 < 256 /\ 0 <= 0 < 256
  /\ fst (MCP47FEB_GetGain (P := SimPlatform 100) 0%nat 0
            (snd (MCP47FEB_SetGain (P := SimPlatform 100) 0%nat 1 0 bench))) = 1
  /\ fst (MCP47FEB_GetGain (P := SimPlatform 100) 0%nat 1
            (snd (MCP47FEB_SetGain (P := SimPlatform 100) 0%nat 1 0 bench))) = 0.
Proof.
  assert (Hb : sim_address (bus bench) = bus_address (handles bench 0%nat)) by reflexivity.
  assert (H0 : 0 <= 1 < 256) by lia.
  assert (H1 : 0 <= 0 < 256) by lia.
  split; [exact Hb |]. split; [exact H0 |]. split; [exact H1 |].
  pose proof (Gain_read_back 100 bench 0%nat 1 0 Hb H0 H1) as (G0 & G1 & _).
  split; [exact G0 | exact G1].
Defined.

Lemma Vref_read_back_witness :
  sim_address (bus bench) = bus_address (handles bench 0%nat)
  /\ (2 <= length (readBuffer bench))%nat
  /\ 0 <= 2 < 256 /\ 0 <= 1 < 256
  /\ fst (MCP47FEB_GetVref (P := SimPlatform 100) 0%nat 0
            (snd (MCP47FEB_SetVref (P := SimPlatform 100) 0%nat 2 1 bench))) = 2
  /\ fst (MCP47FEB_GetVref (P := SimPlatform 100) 0%nat 1
            (snd (MCP47FEB_SetVref (P := SimPlatform 100) 0%nat 2 1 bench))) = 1.
Proof.
  assert (Hb : sim_address (bus bench) = bus_address (handles bench 0%nat)) by reflexivity.
  assert (Hl : (2 <= length (readBuffer bench))%nat) by (simpl; lia).
  assert (H0 : 0 <= 2 < 256) by lia.
  assert (H1 : 0 <= 1 < 256) by lia.
  split; [exact Hb |]. split; [exact Hl |]. split; [exact H0 |]. split; [exact H1 |].
  pose proof (Vref_read_back 100 bench 0%nat 2 1 Hb Hl H0 H1) as (G0 & G1 & _).
  split; [exact G0 | exact G1].
Defined.

Lemma PowerDown_read_back_witness :
  sim_address (bus bench) = bus_address (handles bench 0%nat)
  /\ (2 <= length (readBuffer bench))%nat
  /\ 0 <= 4 < 256 /\ 0 <= 0 < 256
  /\ fst (MCP47FEB_GetPowerDown (P := SimPlatform 100) 0%nat 0
            (snd (MCP47FEB_SetPowerDown (P := SimPlatform 100) 0%nat 4 0 bench))) = 0
  /\ fst (MCP47FEB_GetPowerDown (P := SimPlatform 100) 0%nat 1
            (snd (MCP47FEB_SetPowerDown (P := SimPlatform 100) 0%nat 4 0 bench))) = 1.
Proof.
  assert (Hb : sim_address (bus bench) = bus_address (handles bench 0%nat)) by reflexivity.
  assert (Hl : (2 <= length (readBuffer bench))%nat) by (simpl; lia).
  assert (H0 : 0 <= 4 < 256) by lia.
  assert (H1 : 0 <= 0 < 256) by lia.
  split; [exact Hb |]. split; [exact Hl |]. split; [exact H0 |]. split; [exact H1 |].
  pose proof (PowerDown_read_back 100 bench 0%nat 4 0 Hb Hl H0 H1) as (G0 & G1 & _).
  split; [exact G0 | exact G1].
Defined.
